(** * Smart queueing system: a shallow embedding of [person_detect.py]

    The development follows the source file top to bottom: the [Queue]
    class (zone registry and occupancy evaluation), the [PersonDetect]
    class (thresholding and denormalisation of detector rows, drawing,
    [predict]) and [main] (zone loading, the frame loop with its text
    overlay, and the statistics file).

    Numbers.  Pixel coordinates, zone bounds, counts and dictionary keys
    are Python integers and are modelled by [Z].  Detector scores,
    normalised coordinates, the threshold and the measured times are
    floats; they are modelled by exact rationals [Q], so comparisons,
    [int] and [round] below are those of the mathematical values.

    Exceptions.  Statements that can raise ([d[k] += 1], reading a local
    name, a division) live in the [result] monad. *)

From Stdlib Require Import ZArith QArith Qround Qabs List String Bool Lia.
From Stdlib Require Import DecimalString Lqa Permutation.
Import ListNotations.

Local Open Scope Z_scope.

(** ** Exceptions and the [result] monad *)

Inductive exn : Type :=
| KeyError (key : Z)
| UnboundLocalError (name : string)
| ZeroDivisionError
| IOError
| TypeError.

Inductive result (A : Type) : Type :=
| Ok (a : A)
| Raise (e : exn).

Arguments Ok {A} a.
Arguments Raise {A} e.

Definition bind {A B : Type} (m : result A) (k : A -> result B) : result B :=
  match m with
  | Ok a => k a
  | Raise e => Raise e
  end.

Notation "x <- m ;; k" := (bind m (fun x => k))
  (at level 61, m at next level, right associativity).

(** ** Python numbers *)

(** [int(x)] on a float: truncation toward zero. *)
Definition int (x : Q) : Z := Z.quot (Qnum x) (Z.pos (Qden x)).

(** [round(x)]: to the nearest integer, ties to the even neighbour. *)
Definition round (x : Q) : Z :=
  let f := Qfloor x in
  match ((x - inject_Z f) ?= (1 # 2))%Q with
  | Lt => f
  | Gt => f + 1
  | Eq => if Z.even f then f else f + 1
  end.

(** [round(x, 1)]: one decimal place. *)
Definition round1 (x : Q) : Q := (inject_Z (round (x * inject_Z 10)) / inject_Z 10)%Q.

(** [str(n)] on an integer. *)
Definition str (n : Z) : string := NilZero.string_of_int (Z.to_int n).

(** ** Python slices

    [l[i:j]] with integer bounds: a negative bound counts from the end,
    and both bounds are clamped to [0 .. len(l)]. *)

Definition slice_index (n i : Z) : Z :=
  if i <? 0 then Z.max (i + n) 0 else Z.min i n.

Definition py_slice {A : Type} (l : list A) (i j : Z) : list A :=
  let n := Z.of_nat (List.length l) in
  let start := slice_index n i in
  let stop := slice_index n j in
  firstn (Z.to_nat (stop - start)) (skipn (Z.to_nat start) l).

(** ** Python dictionaries with integer keys

    A [dict] keeps its items in insertion order, which [items()] exposes;
    it is an association list with pairwise distinct keys. *)

Definition dict : Type := list (Z * Z).

Fixpoint dict_get (d : dict) (k : Z) : option Z :=
  match d with
  | [] => None
  | (k', v) :: d' => if k' =? k then Some v else dict_get d' k
  end.

(** [d[k] = v] for a key that may or may not be present: an existing key
    keeps its position, a new one goes last. *)
Fixpoint dict_set (d : dict) (k v : Z) : dict :=
  match d with
  | [] => [(k, v)]
  | (k', v') :: d' => if k' =? k then (k', v) :: d' else (k', v') :: dict_set d' k v
  end.

(** [d[k] += 1]: reads [d[k]], raising [KeyError] when absent, then stores. *)
Definition dict_incr (d : dict) (k : Z) : result dict :=
  match dict_get d k with
  | Some v => Ok (dict_set d k (v + 1))
  | None => Raise (KeyError k)
  end.

Definition items (d : dict) : list (Z * Z) := d.
Definition keys (d : dict) : list Z := map fst d.
Definition values (d : dict) : list Z := map snd d.

(** ** Boxes

    A zone [q] is a row [(x_min, y_min, x_max, y_max)] (line 23 unpacks it
    so); a detection [coord] is the tuple [(xmin, ymin, xmax, ymax)] built
    on line 117.  The field [c0] is index 0, [c2] index 2, and so on. *)

Record Box : Type := mkBox { c0 : Z; c1 : Z; c2 : Z; c3 : Z }.

(** ** class Queue *)

Module Queue.

Record t : Type := mk { queues : list Box }.

(** [__init__] *)
Definition init : t := mk [].

(** [add_queue]: [self.queues.append(points)]. *)
Definition add_queue (self : t) (points : Box) : t :=
  mk (queues self ++ [points]).

(** [get_queues]: the frames the generator yields, in order.  [image] is
    the pixel array as rows of pixels, and [image[y_min:y_max, x_min:x_max]]
    slices the rows and then the columns. *)
Definition get_queues {A : Type} (self : t) (image : list (list A))
  : list (list (list A)) :=
  map (fun q =>
         let x_min := c0 q in
         let y_min := c1 q in
         let x_max := c2 q in
         let y_max := c3 q in
         map (fun row => py_slice row x_min x_max) (py_slice image y_min y_max))
    (queues self).

(** The comprehension [{k+1: 0 for k in range(n)}]. *)
Definition zero_counts (n : nat) : dict :=
  map (fun k => (Z.of_nat k + 1, 0)) (seq 0 n).

(** The test on line 31. *)
Definition inside (coord q : Box) : bool :=
  (c0 coord >? c0 q) && (c2 coord <? c2 q).

(** The inner loop, [for i, q in enumerate(self.queues)], from index [i]. *)
Fixpoint scan_queues (coord : Box) (qs : list Box) (i : nat) (d : dict)
  : result dict :=
  match qs with
  | [] => Ok d
  | q :: qs' =>
      d' <- (if inside coord q then dict_incr d (Z.of_nat i + 1) else Ok d) ;;
      scan_queues coord qs' (S i) d'
  end.

(** The outer loop, [for coord in coords]. *)
Fixpoint scan_coords (coords : list Box) (qs : list Box) (d : dict)
  : result dict :=
  match coords with
  | [] => Ok d
  | coord :: coords' =>
      d' <- scan_queues coord qs 0 d ;;
      scan_coords coords' qs d'
  end.

Definition check_coords (self : t) (coords : list Box) : result dict :=
  scan_coords coords (queues self) (zero_counts (List.length (queues self))).

End Queue.

(** ** Frames and detector rows *)

(** A frame: its [shape[0]] (height) and [shape[1]] (width), and what has
    been drawn on it so far.  [cv2.rectangle] and [cv2.putText] draw in
    place; here they return the updated frame. *)
Record Image : Type := mkImage {
  shape0 : Z;
  shape1 : Z;
  rectangles : list ((Z * Z) * (Z * Z));
  texts : list (string * (Z * Z))
}.

Definition cv2_rectangle (image : Image) (pt1 pt2 : Z * Z) : Image :=
  mkImage (shape0 image) (shape1 image) (rectangles image ++ [(pt1, pt2)])
    (texts image).

Definition cv2_putText (image : Image) (text : string) (org : Z * Z) : Image :=
  mkImage (shape0 image) (shape1 image) (rectangles image)
    (texts image ++ [(text, org)]).

(** One row [box] of [outputs[0][0]]; the output shape is [1, 1, N, 7], so a
    row has the seven columns [box[0]] .. [box[6]]. *)
Record Row : Type := mkRow {
  box0 : Q; box1 : Q; box2 : Q; box3 : Q; box4 : Q; box5 : Q; box6 : Q
}.

(** What request 0 holds after [start_async]: the status [wait(-1)]
    returns and the rows [outputs[self.output_name][0][0]]. *)
Record Request : Type := mkRequest { wait : Z; outputs : list Row }.

(** ** class PersonDetect *)

Module PersonDetect.

(** [net] stands for [preprocess_input] followed by [start_async] on
    request 0: the network is outside the program. *)
Record t : Type := mk { threshold : Q; net : Image -> Request }.

(** The body of the loop on lines 111-117, [bounding_boxes.append] included. *)
Definition keep_box (self : t) (height width : Z) (bounding_boxes : list Box)
  (box : Row) : list Box :=
  if Qle_bool (threshold self) (box2 box) then
    let xmin := int (box3 box * inject_Z width) in
    let ymin := int (box4 box * inject_Z height) in
    let xmax := int (box5 box * inject_Z width) in
    let ymax := int (box6 box * inject_Z height) in
    bounding_boxes ++ [mkBox xmin ymin xmax ymax]
  else bounding_boxes.

Definition preprocess_outputs (self : t) (outputs : list Row) (image : Image)
  : list Box :=
  let height := shape0 image in
  let width := shape1 image in
  fold_left (keep_box self height width) outputs [].

(** [bounding_box[0:2]] and [bounding_box[2:4]] are the two corners. *)
Definition draw_outputs (bounding_boxes : list Box) (image : Image) : Image :=
  fold_left (fun image bounding_box =>
               cv2_rectangle image (c0 bounding_box, c1 bounding_box)
                 (c2 bounding_box, c3 bounding_box))
    bounding_boxes image.

(** [predict].  The local name [bounding_boxes] is bound only in the
    branch of line 77, so it is an [option] that line 84 reads. *)
Definition predict (self : t) (image : Image) : result (list Box * Image) :=
  let request := net self image in
  let '(bounding_boxes, image) :=
    if wait request =? 0 then
      let bounding_boxes := preprocess_outputs self (outputs request) image in
      (Some bounding_boxes, draw_outputs bounding_boxes image)
    else (None, image) in
  match bounding_boxes with
  | Some bounding_boxes => Ok (bounding_boxes, image)
  | None => Raise (UnboundLocalError "bounding_boxes")
  end.

End PersonDetect.

(** ** main *)

(** *** Loading the zones (lines 148-155) *)

(** What [np.load] can hand back: an array that cannot be iterated
    (zero-dimensional) or one whose rows are the zones. *)
Inductive ndarray : Type :=
| ZeroDim
| Rows (rows : list Box).

Definition iter (a : ndarray) : result (list Box) :=
  match a with
  | ZeroDim => Raise TypeError
  | Rows rows => Ok rows
  end.

Definition load_error : string := "error loading queue param file".

(** The [try] of lines 150-155 after [queue=Queue()]; the second component
    is what gets printed. *)
Definition load_queues (np_load : result ndarray) : Queue.t * list string :=
  let queue := Queue.init in
  match (queue_param <- np_load ;;
         rows <- iter queue_param ;;
         Ok (fold_left Queue.add_queue rows queue)) with
  | Ok queue' => (queue', [])
  | Raise _ => (queue, [load_error])
  end.

(** *** The text overlay (lines 184-193) *)

Definition queue_text (k v : Z) : string :=
  "No. of People in Queue " ++ str k ++ " is " ++ str v ++ " ".

Definition queue_full : string := " Queue full; Please move to next Queue ".

(** One turn of [for k, v in num_people.items()], [out_text] being empty
    at its start. *)
Definition line_text (max_people k v : Z) : string :=
  let out_text := ("" ++ queue_text k v)%string in
  if v >=? max_people then (out_text ++ queue_full)%string else out_text.

Fixpoint put_lines (kvs : list (Z * Z)) (max_people y_pixel : Z)
  (image : Image) : Image :=
  match kvs with
  | [] => image
  | (k, v) :: kvs' =>
      put_lines kvs' max_people (y_pixel + 40)
        (cv2_putText image (line_text max_people k v) (15, y_pixel))
  end.

Definition overlay (num_people : dict) (max_people : Z) (image : Image)
  : Image :=
  put_lines (items num_people) max_people 25 image.

(** *** One frame (lines 180-194) and the frame loop *)

Definition process_frame (pd : PersonDetect.t) (queue : Queue.t)
  (max_people : Z) (frame : Image) : result (dict * Image) :=
  ci <- PersonDetect.predict pd frame ;;
  num_people <- Queue.check_coords queue (fst ci) ;;
  Ok (num_people, overlay num_people max_people (snd ci)).

Record Run : Type := mkRun {
  counter : Z;
  out_video : list Image;
  occupancy : list dict
}.

(** The [while] loop over the frames the capture still yields; an
    exception leaves the loop with the state reached so far. *)
Fixpoint frame_loop (pd : PersonDetect.t) (queue : Queue.t) (max_people : Z)
  (frames : list Image) (st : Run) : Run * option exn :=
  match frames with
  | [] => (st, None)
  | frame :: frames' =>
      let st1 := mkRun (counter st + 1) (out_video st) (occupancy st) in
      match process_frame pd queue max_people frame with
      | Ok (num_people, image) =>
          frame_loop pd queue max_people frames'
            (mkRun (counter st1) (out_video st1 ++ [image])
               (occupancy st1 ++ [num_people]))
      | Raise e => (st1, Some e)
      end
  end.

(** *** The statistics file (lines 196-203) *)

Definition newline : string := String (Ascii.ascii_of_nat 10) EmptyString.

(** The three floats handed to [str], in the order they are written. *)
Definition stats_values (counter : Z) (total_time total_model_load_time : Q)
  : result (list Q) :=
  let total_inference_time := round1 total_time in
  fps <- (if Qeq_bool total_inference_time 0 then Raise ZeroDivisionError
          else Ok (inject_Z counter / total_inference_time)%Q) ;;
  Ok [total_inference_time; fps; total_model_load_time].

Section Stats.

(** [str] on a float. *)
Variable repr : Q -> string.

Definition write_line (f : string) (v : Q) : string :=
  (f ++ repr v ++ newline)%string.

(** The contents of [stats.txt], when it gets written. *)
Definition stats_file (counter : Z) (total_time total_model_load_time : Q)
  : result string :=
  vs <- stats_values counter total_time total_model_load_time ;;
  Ok (fold_left write_line vs ""%string).

End Stats.

(** *** The whole run *)

(** What [main] is given: [int(max_people)], what [np.load(args.queue_param)]
    does, and the frames the capture yields until it is exhausted. *)
Record Args : Type := mkArgs {
  max_people : Z;
  queue_param : result ndarray;
  video : list Image
}.

(** What [main] leaves behind: the error lines it printed, the frames
    written to the output video, and [stats.txt] if it was written. *)
Record Output : Type := mkOutput {
  printed : list string;
  output_video : list Image;
  stats_txt : option string
}.

Definition run_error : string := "Could not run Inference: ".

(** The frame loop of a run, on the registry the loading step leaves. *)
Definition run_loop (pd : PersonDetect.t) (args : Args) : Run * option exn :=
  frame_loop pd (fst (load_queues (queue_param args))) (max_people args)
    (video args) (mkRun 0 [] []).

(** [main], with the two measured durations as inputs.  The [try] of lines
    173-208 catches what the loop or the division raises; [stats.txt] is
    opened only after the division. *)
Definition main (repr : Q -> string) (pd : PersonDetect.t) (args : Args)
  (total_model_load_time total_time : Q) : Output :=
  let log := snd (load_queues (queue_param args)) in
  let '(st, raised) := run_loop pd args in
  match raised with
  | Some _ => mkOutput (log ++ [run_error]) (out_video st) None
  | None =>
      match stats_file repr (counter st) total_time total_model_load_time with
      | Ok contents => mkOutput log (out_video st) (Some contents)
      | Raise _ => mkOutput (log ++ [run_error]) (out_video st) None
      end
  end.

(** ** The specification's wording, for comparison *)

(** The pixel box the specification writes with [round]. *)
Definition spec_box (W H : Z) (box : Row) : Box :=
  mkBox (round (box3 box * inject_Z W)) (round (box4 box * inject_Z H))
        (round (box5 box * inject_Z W)) (round (box6 box * inject_Z H)).

(** The specification's zone validity, [x_max > x_min] and [y_max > y_min]. *)
Definition spec_valid_zone (rect : Box) : bool :=
  (c2 rect >? c0 rect) && (c3 rect >? c1 rect).

(** The specification's [add_zone]: it rejects an invalid rectangle. *)
Definition spec_add_zone (self : Queue.t) (rect : Box) : option Queue.t :=
  if spec_valid_zone rect then Some (Queue.add_queue self rect) else None.

(** The specification's [average_fps = frame_count / total_inference_seconds]. *)
Definition spec_average_fps (frame_count : Z) (total_inference_seconds : Q) : Q :=
  (inject_Z frame_count / total_inference_seconds)%Q.

(** ** Quantities the statements use *)

(** How many detections of [coords] pass the test of line 31 against [q]. *)
Definition hits (coords : list Box) (q : Box) : Z :=
  Z.of_nat (List.length (filter (fun coord => Queue.inside coord q) coords)).

(** The dictionary [check_coords] is shown to return: zone [i] of [qs],
    counted from [i], under key [i + 1]. *)
Fixpoint tally (coords : list Box) (qs : list Box) (i : nat) : dict :=
  match qs with
  | [] => []
  | q :: qs' => (Z.of_nat i + 1, hits coords q) :: tally coords qs' (S i)
  end.

Definition total (l : list Z) : Z := fold_right Z.add 0 l.

(** In how many zones of [qs] the detection [coord] passes the test. *)
Definition zones_holding (qs : list Box) (coord : Box) : Z :=
  Z.of_nat (List.length (filter (fun q => Queue.inside coord q) qs)).

(** The [putText] calls of the loop, from vertical position [y_pixel]. *)
Fixpoint lines (kvs : list (Z * Z)) (max_people y_pixel : Z)
  : list (string * (Z * Z)) :=
  match kvs with
  | [] => []
  | (k, v) :: kvs' =>
      (line_text max_people k v, (15, y_pixel))
        :: lines kvs' max_people (y_pixel + 40)
  end.

(** The two corners [draw_outputs] hands to [cv2.rectangle]. *)
Definition corners (b : Box) : (Z * Z) * (Z * Z) := ((c0 b, c1 b), (c2 b, c3 b)).

(** The test of line 111 and the tuple of lines 112-117, for one row. *)
Definition kept (self : PersonDetect.t) (box : Row) : bool :=
  Qle_bool (PersonDetect.threshold self) (box2 box).

Definition pixel_box (image : Image) (box : Row) : Box :=
  mkBox (int (box3 box * inject_Z (shape1 image)))
        (int (box4 box * inject_Z (shape0 image)))
        (int (box5 box * inject_Z (shape1 image)))
        (int (box6 box * inject_Z (shape0 image))).

(** A pixel array all of whose rows have [W] pixels. *)
Definition rectangular {A : Type} (W : nat) (image : list (list A)) : Prop :=
  Forall (fun row => List.length row = W) image.

(** The pixel [image[r][c]], if there is one. *)
Definition pixel_at {A : Type} (image : list (list A)) (r c : nat) : option A :=
  match nth_error image r with
  | Some row => nth_error row c
  | None => None
  end.

(** The zone [q] with its [y_min] replaced. *)
Definition with_y_min (q : Box) (y_min : Z) : Box :=
  mkBox (c0 q) y_min (c2 q) (c3 q).

(** A row whose four coordinates are normalised to [0, 1]. *)
Definition normalised (box : Row) : Prop :=
  (0 <= box3 box <= 1)%Q /\ (0 <= box4 box <= 1)%Q /\
  (0 <= box5 box <= 1)%Q /\ (0 <= box6 box <= 1)%Q.

(** A frame on which the detector completes and no row reaches the
    threshold. *)
Definition nothing_detected (pd : PersonDetect.t) (frame : Image) : Prop :=
  wait (PersonDetect.net pd frame) = 0 /\
  Forall (fun box => (box2 box < PersonDetect.threshold pd)%Q)
    (outputs (PersonDetect.net pd frame)).

(** ** Sample inputs *)

(** Two nested zones, and a detection inside both horizontally that is
    taller than either. *)
Definition demo_zone : Box := mkBox 0 100 100 200.
Definition demo_nested_zone : Box := mkBox 10 120 90 180.
Definition demo_tall_detection : Box := mkBox 20 0 30 400.

(** A rectangle with [x_max < x_min]. *)
Definition demo_inverted_zone : Box := mkBox 10 0 5 10.

(** Two zones holding two and one of the detections [demo_coords]. *)
Definition demo_wide_zone : Box := mkBox 0 0 300 50.
Definition demo_narrow_zone : Box := mkBox 100 0 200 50.
Definition demo_coords : list Box := [mkBox 10 5 20 40; mkBox 110 5 120 40].

(** A 544 x 320 frame, a network that always succeeds with the given
    rows, and a row with score 0.9 and corners (0.7, 0.2), (0.9, 0.4). *)
Definition demo_image : Image := mkImage 320 544 [] [].
Definition demo_net (rows : list Row) (_ : Image) : Request := mkRequest 0 rows.
Definition demo_row : Row := mkRow 0 1 (9 # 10) (7 # 10) (1 # 5) (9 # 10) (2 # 5).

(** A 3 x 4 pixel array. *)
Definition demo_pixels : list (list Z) :=
  [[11; 12; 13; 14]; [21; 22; 23; 24]; [31; 32; 33; 34]].

(** A run over two frames with one zone loaded. *)
Definition demo_args : Args :=
  mkArgs 2 (Ok (Rows [demo_zone])) [demo_image; demo_image].

(** ** Running the model on small inputs *)

Example check_coords_two_zones :
  Queue.check_coords (Queue.mk [mkBox 0 0 100 50; mkBox 100 0 200 50])
    [mkBox 10 5 20 40; mkBox 110 5 120 400; mkBox 90 5 110 40]
  = Ok [(1, 1); (2, 1)].
Proof. reflexivity. Qed.

Example int_truncates : int (27 # 5) = 5 /\ int (- (27 # 5)) = -5.
Proof. split; reflexivity. Qed.

Example round_ties_to_even :
  round (5 # 2) = 2 /\ round (7 # 2) = 4 /\ round (27 # 5) = 5 /\ round (13 # 5) = 3.
Proof. repeat split; reflexivity. Qed.

Example str_decimal : str 12 = "12"%string /\ str 0 = "0"%string.
Proof. split; reflexivity. Qed.

(** ** The result monad *)

Lemma bind_Ok {A B : Type} (a : A) (k : A -> result B) :
  (x <- Ok a ;; k x) = k a.
Proof. reflexivity. Qed.

(** ** Dictionaries *)

Lemma dict_get_app_notin (pre : dict) (k : Z) (d : dict) :
  ~ In k (keys pre) -> dict_get (pre ++ d) k = dict_get d k.
Proof.
  induction pre as [| [k' v'] pre IH]; simpl; intros Hk.
  - reflexivity.
  - destruct (Z.eqb_spec k' k) as [-> | _].
    + exfalso; apply Hk; left; reflexivity.
    + apply IH; intros Hin; apply Hk; right; exact Hin.
Qed.

Lemma dict_set_app_notin (pre : dict) (k v : Z) (d : dict) :
  ~ In k (keys pre) -> dict_set (pre ++ d) k v = pre ++ dict_set d k v.
Proof.
  induction pre as [| [k' v'] pre IH]; simpl; intros Hk.
  - reflexivity.
  - destruct (Z.eqb_spec k' k) as [-> | _].
    + exfalso; apply Hk; left; reflexivity.
    + f_equal; apply IH; intros Hin; apply Hk; right; exact Hin.
Qed.

(** [d[k] += 1] on a key that sits behind a prefix of other keys. *)
Lemma dict_incr_behind (pre : dict) (k v : Z) (rest : dict) :
  ~ In k (keys pre) ->
  dict_incr (pre ++ (k, v) :: rest) k = Ok (pre ++ (k, v + 1) :: rest).
Proof.
  intros Hk; unfold dict_incr.
  rewrite dict_get_app_notin by exact Hk; simpl.
  rewrite Z.eqb_refl, dict_set_app_notin by exact Hk; simpl.
  rewrite Z.eqb_refl; reflexivity.
Qed.

(** ** Occupancy in closed form *)

Lemma hits_snoc (coords : list Box) (coord q : Box) :
  hits (coords ++ [coord]) q =
  hits coords q + (if Queue.inside coord q then 1 else 0).
Proof.
  unfold hits; rewrite filter_app, length_app; simpl.
  destruct (Queue.inside coord q); simpl; lia.
Qed.

Lemma hits_cons (coords : list Box) (coord q : Box) :
  hits (coord :: coords) q =
  (if Queue.inside coord q then 1 else 0) + hits coords q.
Proof.
  unfold hits; cbn [filter].
  destruct (Queue.inside coord q); cbn [List.length]; lia.
Qed.

Lemma hits_nonneg (coords : list Box) (q : Box) : 0 <= hits coords q.
Proof. unfold hits; lia. Qed.

Lemma zero_counts_tally (qs : list Box) (i : nat) :
  map (fun k => (Z.of_nat k + 1, 0)) (seq i (List.length qs)) = tally [] qs i.
Proof.
  revert i; induction qs as [| q qs IH]; intros i; simpl.
  - reflexivity.
  - rewrite IH; reflexivity.
Qed.

Lemma keys_tally (coords qs : list Box) (i : nat) :
  keys (tally coords qs i) =
  map (fun k => Z.of_nat k + 1) (seq i (List.length qs)).
Proof.
  revert i; induction qs as [| q qs IH]; intros i; simpl.
  - reflexivity.
  - f_equal; apply IH.
Qed.

Lemma values_tally (coords qs : list Box) (i : nat) :
  values (tally coords qs i) = map (hits coords) qs.
Proof.
  revert i; induction qs as [| q qs IH]; intros i; simpl.
  - reflexivity.
  - f_equal; apply IH.
Qed.

Lemma dict_get_tally (coords qs : list Box) (i j : nat) (z : Box) :
  nth_error qs j = Some z ->
  dict_get (tally coords qs i) (Z.of_nat (i + j) + 1) = Some (hits coords z).
Proof.
  revert i j; induction qs as [| q qs IH]; intros i j Hj.
  - destruct j; discriminate Hj.
  - destruct j as [| j]; simpl in *.
    + injection Hj as ->.
      replace (Z.of_nat (i + 0)) with (Z.of_nat i) by (f_equal; lia).
      rewrite Z.eqb_refl; reflexivity.
    + destruct (Z.eqb_spec (Z.of_nat i + 1) (Z.of_nat (i + S j) + 1)) as [E | _];
        [lia |].
      replace (i + S j)%nat with (S i + j)%nat by lia.
      apply IH; exact Hj.
Qed.

(** The inner loop turns the tally of [done] into that of [done ++ [coord]];
    [pre] holds the keys the loop has already passed. *)
Lemma scan_queues_tally (coord : Box) (done : list Box) (qs : list Box) :
  forall (i : nat) (pre : dict),
    (forall k, In k (keys pre) -> k < Z.of_nat i + 1) ->
    Queue.scan_queues coord qs i (pre ++ tally done qs i) =
    Ok (pre ++ tally (done ++ [coord]) qs i).
Proof.
  induction qs as [| q qs IH]; intros i pre Hpre; simpl.
  - reflexivity.
  - rewrite hits_snoc.
    assert (Hfresh : ~ In (Z.of_nat i + 1) (keys pre)).
    { intros Hin; apply Hpre in Hin; lia. }
    assert (Hnext : forall v k,
               In k (keys (pre ++ [(Z.of_nat i + 1, v)])) ->
               k < Z.of_nat (S i) + 1).
    { intros v k; unfold keys; rewrite map_app, in_app_iff.
      intros [Hin | Hin].
      - apply Hpre in Hin; lia.
      - destruct Hin as [Hin | []]; cbn [fst map] in Hin; lia. }
    destruct (Queue.inside coord q).
    + rewrite dict_incr_behind by exact Hfresh; simpl.
      specialize (IH (S i) (pre ++ [(Z.of_nat i + 1, hits done q + 1)])
                    (Hnext _)).
      rewrite <- !app_assoc in IH; simpl in IH; exact IH.
    + simpl; rewrite Z.add_0_r.
      specialize (IH (S i) (pre ++ [(Z.of_nat i + 1, hits done q)])
                    (Hnext _)).
      rewrite <- !app_assoc in IH; simpl in IH; exact IH.
Qed.

Lemma scan_coords_tally (coords qs : list Box) :
  forall done : list Box,
    Queue.scan_coords coords qs (tally done qs 0) =
    Ok (tally (done ++ coords) qs 0).
Proof.
  induction coords as [| coord coords IH]; intros done; simpl.
  - rewrite app_nil_r; reflexivity.
  - pose proof (scan_queues_tally coord done qs 0 []) as Hq.
    cbn [app] in Hq; rewrite Hq by (intros k []).
    rewrite bind_Ok, IH, <- app_assoc; reflexivity.
Qed.

(** [check_coords] never raises, and returns the tally. *)
Lemma check_coords_tally (self : Queue.t) (coords : list Box) :
  Queue.check_coords self coords = Ok (tally coords (Queue.queues self) 0).
Proof.
  unfold Queue.check_coords, Queue.zero_counts.
  rewrite zero_counts_tally; apply (scan_coords_tally coords _ []).
Qed.

Lemma inside_iff (coord q : Box) :
  Queue.inside coord q = true <-> c0 coord > c0 q /\ c2 coord < c2 q.
Proof.
  unfold Queue.inside; rewrite andb_true_iff, Z.gtb_gt, Z.ltb_lt; lia.
Qed.

Lemma hits_zero (coords : list Box) (q : Box) :
  (forall coord, In coord coords -> Queue.inside coord q = false) ->
  hits coords q = 0.
Proof.
  induction coords as [| coord coords IH]; intros Hout.
  - reflexivity.
  - rewrite hits_cons, (Hout coord) by (left; reflexivity).
    rewrite IH; [reflexivity |].
    intros c Hc; apply Hout; right; exact Hc.
Qed.

Lemma hits_positive (coords : list Box) (coord q : Box) :
  In coord coords -> Queue.inside coord q = true -> 1 <= hits coords q.
Proof.
  induction coords as [| c coords IH]; intros Hin Hq.
  - destruct Hin.
  - rewrite hits_cons; pose proof (hits_nonneg coords q) as Hpos.
    destruct Hin as [-> | Hin].
    + rewrite Hq; lia.
    + specialize (IH Hin Hq); destruct (Queue.inside c q); lia.
Qed.

(** ** Sums of counts *)

Lemma total_map_add {A : Type} (f g : A -> Z) (l : list A) :
  total (map (fun a => f a + g a) l) = total (map f l) + total (map g l).
Proof.
  induction l as [| a l IH]; simpl; [reflexivity | rewrite IH; lia].
Qed.

Lemma total_indicator (qs : list Box) (coord : Box) :
  total (map (fun q => if Queue.inside coord q then 1 else 0) qs) =
  zones_holding qs coord.
Proof.
  unfold zones_holding; induction qs as [| q qs IH]; cbn [map total fold_right filter].
  - reflexivity.
  - fold (total (map (fun q => if Queue.inside coord q then 1 else 0) qs)).
    rewrite IH; destruct (Queue.inside coord q); cbn [List.length]; lia.
Qed.

(** Counting by zone and counting by detection give the same total. *)
Lemma total_hits_by_detection (coords qs : list Box) :
  total (map (hits coords) qs) = total (map (zones_holding qs) coords).
Proof.
  induction coords as [| coord coords IH].
  - simpl; induction qs as [| q qs IHq]; simpl; [reflexivity | exact IHq].
  - rewrite (map_ext _ _ (hits_cons coords coord)), total_map_add.
    rewrite total_indicator, IH; reflexivity.
Qed.

(** ** Zone evaluation *)

(** C1.  For a zone [z] registered at position [i] and a detection [d]
    evaluated after the detections [coords], [check_coords] returns, and
    the count it reports for [z] (key [i + 1]) is the number of detections
    with [xmin > z.xmin] and [xmax < z.xmax]; evaluating [d] as well adds
    one to that count exactly when [d.xmin > z.xmin] and [d.xmax < z.xmax],
    and leaves it unchanged otherwise (so not on equality of a bound).  The
    vertical coordinates [c1], [c3] of [d] and of [z] are arbitrary. *)
Theorem check_coords_strict_horizontal
  (self : Queue.t) (coords : list Box) (d : Box) (i : nat) (z : Box) :
  nth_error (Queue.queues self) i = Some z ->
  exists before after n,
    Queue.check_coords self coords = Ok before /\
    Queue.check_coords self (coords ++ [d]) = Ok after /\
    dict_get before (Z.of_nat i + 1) = Some n /\
    n = Z.of_nat (List.length
          (filter (fun c => (c0 c >? c0 z) && (c2 c <? c2 z)) coords)) /\
    (c0 d > c0 z /\ c2 d < c2 z ->
       dict_get after (Z.of_nat i + 1) = Some (n + 1)) /\
    (~ (c0 d > c0 z /\ c2 d < c2 z) ->
       dict_get after (Z.of_nat i + 1) = Some n).
Proof.
  intros Hz.
  exists (tally coords (Queue.queues self) 0),
         (tally (coords ++ [d]) (Queue.queues self) 0), (hits coords z).
  pose proof (dict_get_tally coords _ 0 i z Hz) as Hb.
  pose proof (dict_get_tally (coords ++ [d]) _ 0 i z Hz) as Ha.
  cbn [Nat.add] in Hb, Ha; rewrite hits_snoc in Ha.
  repeat split; try apply check_coords_tally; try exact Hb.
  - intros Hin; apply inside_iff in Hin; rewrite Hin in Ha; exact Ha.
  - intros Hout; destruct (Queue.inside d z) eqn:E.
    + apply inside_iff in E; contradiction.
    + rewrite Z.add_0_r in Ha; exact Ha.
Qed.

Lemma check_coords_strict_horizontal_witness :
  nth_error (Queue.queues (Queue.mk [demo_zone])) 0 = Some demo_zone /\
  exists before after n,
    Queue.check_coords (Queue.mk [demo_zone]) [] = Ok before /\
    Queue.check_coords (Queue.mk [demo_zone]) ([] ++ [demo_tall_detection])
      = Ok after /\
    dict_get before (Z.of_nat 0 + 1) = Some n /\
    n = Z.of_nat (List.length
          (filter (fun c => (c0 c >? c0 demo_zone) && (c2 c <? c2 demo_zone))
             [])) /\
    (c0 demo_tall_detection > c0 demo_zone /\
     c2 demo_tall_detection < c2 demo_zone ->
       dict_get after (Z.of_nat 0 + 1) = Some (n + 1)) /\
    (~ (c0 demo_tall_detection > c0 demo_zone /\
        c2 demo_tall_detection < c2 demo_zone) ->
       dict_get after (Z.of_nat 0 + 1) = Some n).
Proof.
  split.
  - reflexivity.
  - apply (check_coords_strict_horizontal (Queue.mk [demo_zone]) []
             demo_tall_detection 0 demo_zone).
    reflexivity.
Defined.

(** C4.  For every registry and every list of detections [check_coords]
    returns a mapping with one entry per registered zone, its keys being
    [1 .. N] in registration order; with no detection every count is [0],
    a zone for which no detection qualifies reports [0], and an empty
    registry gives the empty mapping. *)
Theorem check_coords_one_entry_per_zone (self : Queue.t) (coords : list Box) :
  exists d,
    Queue.check_coords self coords = Ok d /\
    keys d =
      map (fun k => Z.of_nat k + 1) (seq 0 (List.length (Queue.queues self))) /\
    List.length d = List.length (Queue.queues self) /\
    Queue.check_coords self [] =
      Ok (map (fun k => (Z.of_nat k + 1, 0))
            (seq 0 (List.length (Queue.queues self)))) /\
    (forall i z,
        nth_error (Queue.queues self) i = Some z ->
        (forall c, In c coords -> ~ (c0 c > c0 z /\ c2 c < c2 z)) ->
        dict_get d (Z.of_nat i + 1) = Some 0) /\
    (Queue.queues self = [] -> d = []).
Proof.
  exists (tally coords (Queue.queues self) 0).
  split; [apply check_coords_tally |].
  split; [apply keys_tally |].
  split.
  { rewrite <- (length_map fst); fold (keys (tally coords (Queue.queues self) 0)).
    rewrite keys_tally, length_map, length_seq; reflexivity. }
  split; [reflexivity |].
  split.
  - intros i z Hz Hout.
    pose proof (dict_get_tally coords _ 0 i z Hz) as Hg; cbn [Nat.add] in Hg.
    rewrite Hg, hits_zero; [reflexivity |].
    intros c Hc; destruct (Queue.inside c z) eqn:E; [| reflexivity].
    apply inside_iff in E; exfalso; exact (Hout c Hc E).
  - intros ->; reflexivity.
Qed.

Lemma check_coords_one_entry_per_zone_witness :
  exists d,
    Queue.check_coords (Queue.mk [demo_zone; demo_nested_zone])
      [mkBox 5 0 50 10] = Ok d /\
    keys d = [1; 2] /\
    dict_get d 1 = Some 1 /\
    dict_get d 2 = Some 0.
Proof.
  destruct (check_coords_one_entry_per_zone
              (Queue.mk [demo_zone; demo_nested_zone]) [mkBox 5 0 50 10])
    as (d & Hd & Hk & _ & _ & Hzero & _).
  exists d; split; [exact Hd |]; split; [exact Hk |]; split.
  - rewrite check_coords_tally in Hd; injection Hd as <-; reflexivity.
  - apply (Hzero 1%nat demo_nested_zone); [reflexivity |].
    intros c [<- | []]; simpl; lia.
Defined.

(** C10.  Zone membership is not exclusive.  For every registry and every
    list of detections the per-zone counts add up to the number of
    (detection, zone) pairs that pass the test, each detection
    contributing once for every zone that holds it; a detection held by
    two distinct zones is counted in both; and there is a frame in which
    the counts add up to more than the number of detections. *)
Theorem zone_membership_not_exclusive (self : Queue.t) (coords : list Box) :
  exists d,
    Queue.check_coords self coords = Ok d /\
    total (values d) = total (map (zones_holding (Queue.queues self)) coords) /\
    (forall c i j zi zj,
        In c coords -> i <> j ->
        nth_error (Queue.queues self) i = Some zi ->
        nth_error (Queue.queues self) j = Some zj ->
        c0 c > c0 zi /\ c2 c < c2 zi ->
        c0 c > c0 zj /\ c2 c < c2 zj ->
        exists ni nj,
          dict_get d (Z.of_nat i + 1) = Some ni /\
          dict_get d (Z.of_nat j + 1) = Some nj /\
          1 <= ni /\ 1 <= nj) /\
    (exists self' coords' d',
        Queue.check_coords self' coords' = Ok d' /\
        total (values d') > Z.of_nat (List.length coords')).
Proof.
  exists (tally coords (Queue.queues self) 0).
  split; [apply check_coords_tally |].
  split; [rewrite values_tally; apply total_hits_by_detection |].
  split.
  - intros c i j zi zj Hc _ Hi Hj Hci Hcj.
    exists (hits coords zi), (hits coords zj).
    pose proof (dict_get_tally coords _ 0 i zi Hi) as Hgi.
    pose proof (dict_get_tally coords _ 0 j zj Hj) as Hgj.
    cbn [Nat.add] in Hgi, Hgj.
    apply inside_iff in Hci, Hcj.
    repeat split; try assumption; eapply hits_positive; eassumption.
  - exists (Queue.mk [demo_zone; demo_nested_zone]), [demo_tall_detection],
           [(1, 1); (2, 1)].
    split; reflexivity.
Qed.

Lemma zone_membership_not_exclusive_witness :
  exists ni nj,
    dict_get (tally [demo_tall_detection] [demo_zone; demo_nested_zone] 0)
      (Z.of_nat 0 + 1) = Some ni /\
    dict_get (tally [demo_tall_detection] [demo_zone; demo_nested_zone] 0)
      (Z.of_nat 1 + 1) = Some nj /\
    1 <= ni /\ 1 <= nj.
Proof.
  destruct (zone_membership_not_exclusive
              (Queue.mk [demo_zone; demo_nested_zone]) [demo_tall_detection])
    as (d & Hd & _ & Hboth & _).
  rewrite check_coords_tally in Hd; injection Hd as <-.
  apply (Hboth demo_tall_detection 0%nat 1%nat demo_zone demo_nested_zone).
  - left; reflexivity.
  - discriminate.
  - reflexivity.
  - reflexivity.
  - simpl; lia.
  - simpl; lia.
Defined.

(** ** Registering zones *)

(** C5, as the specification words it, fails: [add_queue] has no validity
    check, so a rectangle with [x_max <= x_min] is registered like any
    other, where the specification's [add_zone] rejects it. *)
Lemma add_queue_registers_inverted_zone :
  spec_valid_zone demo_inverted_zone = false /\
  spec_add_zone Queue.init demo_inverted_zone = None /\
  Queue.queues (Queue.add_queue Queue.init demo_inverted_zone)
    = [demo_inverted_zone] /\
  Queue.queues (Queue.add_queue Queue.init demo_inverted_zone)
    <> Queue.queues Queue.init.
Proof.
  repeat split; discriminate.
Qed.

(** C5, amended.  [add_queue] never fails and appends every rectangle,
    valid or not, at the end of the registry: the zones registered before
    keep their positions and the new one gets the next index.  On a
    rectangle with [x_max > x_min] and [y_max > y_min] this is what the
    specification's [add_zone] does. *)
Theorem add_queue_appends_unconditionally (self : Queue.t) (rect : Box) :
  Queue.queues (Queue.add_queue self rect) = Queue.queues self ++ [rect] /\
  List.length (Queue.queues (Queue.add_queue self rect))
    = S (List.length (Queue.queues self)) /\
  nth_error (Queue.queues (Queue.add_queue self rect))
    (List.length (Queue.queues self)) = Some rect /\
  (forall i, (i < List.length (Queue.queues self))%nat ->
     nth_error (Queue.queues (Queue.add_queue self rect)) i
       = nth_error (Queue.queues self) i) /\
  (c2 rect > c0 rect /\ c3 rect > c1 rect ->
     spec_add_zone self rect = Some (Queue.add_queue self rect)).
Proof.
  unfold Queue.add_queue; cbn [Queue.queues].
  split; [reflexivity |].
  split; [rewrite length_app; simpl; lia |].
  split; [rewrite nth_error_app2, Nat.sub_diag by lia; reflexivity |].
  split; [intros i Hi; apply nth_error_app1; exact Hi |].
  intros [Hx Hy]; unfold spec_add_zone, spec_valid_zone.
  apply Z.gt_lt, Z.gtb_lt in Hx, Hy; rewrite Hx, Hy; reflexivity.
Qed.

Lemma add_queue_appends_unconditionally_witness :
  (c2 demo_zone > c0 demo_zone /\ c3 demo_zone > c1 demo_zone) /\
  spec_add_zone (Queue.mk [demo_inverted_zone]) demo_zone
    = Some (Queue.add_queue (Queue.mk [demo_inverted_zone]) demo_zone) /\
  nth_error
    (Queue.queues (Queue.add_queue (Queue.mk [demo_inverted_zone]) demo_zone))
    0 = nth_error (Queue.queues (Queue.mk [demo_inverted_zone])) 0.
Proof.
  destruct (add_queue_appends_unconditionally
              (Queue.mk [demo_inverted_zone]) demo_zone)
    as (_ & _ & _ & Hkeep & Hspec).
  assert (Hvalid : c2 demo_zone > c0 demo_zone /\ c3 demo_zone > c1 demo_zone)
    by (simpl; lia).
  split; [exact Hvalid |].
  split; [exact (Hspec Hvalid) |].
  apply Hkeep; simpl; lia.
Defined.

(** ** Loading the zones *)

Lemma check_coords_no_zone (self : Queue.t) (coords : list Box) :
  Queue.queues self = [] -> Queue.check_coords self coords = Ok [].
Proof.
  intros H; rewrite check_coords_tally, H; reflexivity.
Qed.

Lemma process_frame_no_zone (pd : PersonDetect.t) (queue : Queue.t)
  (max_people : Z) (frame : Image) (num_people : dict) (image : Image) :
  Queue.queues queue = [] ->
  process_frame pd queue max_people frame = Ok (num_people, image) ->
  num_people = [].
Proof.
  intros Hq; unfold process_frame.
  destruct (PersonDetect.predict pd frame) as [ci | e]; simpl; [| discriminate].
  rewrite (check_coords_no_zone queue (fst ci) Hq); simpl.
  intros H; injection H as <- _; reflexivity.
Qed.

Lemma frame_loop_no_zone (pd : PersonDetect.t) (queue : Queue.t)
  (max_people : Z) (frames : list Image) :
  Queue.queues queue = [] ->
  forall st : Run,
    Forall (fun num_people => num_people = []) (occupancy st) ->
    Forall (fun num_people => num_people = [])
      (occupancy (fst (frame_loop pd queue max_people frames st))).
Proof.
  intros Hq; induction frames as [| frame frames IH]; intros st Hst; simpl.
  - exact Hst.
  - destruct (process_frame pd queue max_people frame) as [[num_people image] | e]
      eqn:E.
    + apply IH; cbn [occupancy].
      apply Forall_app; split; [exact Hst |].
      constructor; [| constructor].
      exact (process_frame_no_zone _ _ _ _ _ _ Hq E).
    + exact Hst.
Qed.

(** C8.  When the body of the loading [try] raises (at [np.load] or when
    the loaded value cannot be iterated), the run goes on: [main] prints
    the error line first and keeps an empty registry, [check_coords] then
    returns the empty mapping for every list of detections, and every
    occupancy the frame loop of that run computes is empty. *)
Theorem load_failure_gives_empty_registry (np_load : result ndarray) (e : exn) :
  (queue_param <- np_load ;; iter queue_param) = Raise e ->
  load_queues np_load = (Queue.init, [load_error]) /\
  Queue.queues (fst (load_queues np_load)) = [] /\
  (forall coords,
      Queue.check_coords (fst (load_queues np_load)) coords = Ok []) /\
  (forall repr pd max_people video total_model_load_time total_time,
      let args := mkArgs max_people np_load video in
      (exists rest,
          printed (main repr pd args total_model_load_time total_time)
            = load_error :: rest) /\
      Forall (fun num_people => num_people = [])
        (occupancy (fst (run_loop pd args)))).
Proof.
  intros Hfail.
  assert (Hload : load_queues np_load = (Queue.init, [load_error])).
  { unfold load_queues.
    destruct np_load as [[| rows] | e']; simpl in *;
      [reflexivity | discriminate Hfail | reflexivity]. }
  rewrite Hload; cbn [fst].
  split; [reflexivity |].
  split; [reflexivity |].
  split.
  - intros coords; apply check_coords_no_zone; reflexivity.
  - intros repr pd max_people video total_model_load_time total_time.
    set (args := mkArgs max_people np_load video).
    split.
    + unfold main; cbn [args queue_param]; rewrite Hload; cbn [snd].
      destruct (run_loop pd args) as [st [raised |]].
      * eexists; reflexivity.
      * destruct (stats_file repr (counter st) total_time total_model_load_time);
          eexists; reflexivity.
    + unfold run_loop, args; simpl; rewrite Hload; cbn [fst].
      apply frame_loop_no_zone; [reflexivity | constructor].
Qed.

Lemma load_failure_gives_empty_registry_witness :
  (queue_param <- Raise IOError ;; iter queue_param) = Raise IOError /\
  load_queues (Raise IOError) = (Queue.init, [load_error]) /\
  Queue.check_coords (fst (load_queues (Raise IOError))) [demo_tall_detection]
    = Ok [].
Proof.
  assert (Hfail : (queue_param <- Raise IOError ;; iter queue_param)
                  = Raise IOError) by reflexivity.
  destruct (load_failure_gives_empty_registry (Raise IOError) IOError Hfail)
    as (Hload & _ & Hempty & _).
  split; [exact Hfail |].
  split; [exact Hload | apply Hempty].
Defined.

(** ** Truncation and rounding *)

(** [int] is the floor of a non-negative number and the ceiling of a
    negative one. *)
Lemma int_floor_or_ceiling (x : Q) :
  int x = if 0 <=? Qnum x then Qfloor x else Qceiling x.
Proof.
  destruct x as [n d]; unfold int, Qceiling, Qfloor; cbn [Qnum Qden Qopp].
  destruct (Z.leb_spec 0 n) as [Hn | Hn].
  - apply Z.quot_div_nonneg; lia.
  - rewrite <- (Z.opp_involutive n) at 1.
    rewrite Z.quot_opp_l by lia.
    rewrite Z.quot_div_nonneg by lia; reflexivity.
Qed.

Lemma int_floor_nonneg (x : Q) : (0 <= x)%Q -> int x = Qfloor x.
Proof.
  intros Hx; rewrite int_floor_or_ceiling.
  destruct x as [n d]; unfold Qle in Hx; cbn [Qnum Qden] in *.
  destruct (Z.leb_spec 0 n); [reflexivity | lia].
Qed.

(** ** Postprocessing the detector rows *)

Lemma preprocess_outputs_snoc (self : PersonDetect.t) (outputs : list Row)
  (box : Row) (image : Image) :
  PersonDetect.preprocess_outputs self (outputs ++ [box]) image =
  PersonDetect.keep_box self (shape0 image) (shape1 image)
    (PersonDetect.preprocess_outputs self outputs image) box.
Proof.
  unfold PersonDetect.preprocess_outputs; rewrite fold_left_app; reflexivity.
Qed.

Lemma keep_box_fold_length (self : PersonDetect.t) (height width : Z)
  (outputs : list Row) :
  forall acc : list Box,
    List.length (fold_left (PersonDetect.keep_box self height width) outputs acc) =
    (List.length acc +
     List.length (filter (fun box => Qle_bool (PersonDetect.threshold self) (box2 box))
                    outputs))%nat.
Proof.
  induction outputs as [| box outputs IH]; intros acc; cbn [fold_left filter].
  - cbn [List.length]; lia.
  - rewrite IH; unfold PersonDetect.keep_box.
    destruct (Qle_bool (PersonDetect.threshold self) (box2 box)).
    + rewrite length_app; cbn [List.length]; lia.
    + lia.
Qed.

(** C2.  A row appended to the detector output adds a detection to the
    result of [preprocess_outputs] if and only if its score [box[2]] is
    greater than or equal to the threshold, so a score equal to the
    threshold keeps the row; a row is dropped, the result being unchanged,
    if and only if its score is below the threshold.  The function is
    total, and over a whole output it returns as many boxes as there are
    rows with [threshold <= score]. *)
Theorem threshold_inclusive (self : PersonDetect.t) (outputs : list Row)
  (box : Row) (image : Image) :
  let before := PersonDetect.preprocess_outputs self outputs image in
  let after := PersonDetect.preprocess_outputs self (outputs ++ [box]) image in
  ((PersonDetect.threshold self <= box2 box)%Q <->
     exists b, after = before ++ [b]) /\
  ((box2 box == PersonDetect.threshold self)%Q ->
     exists b, after = before ++ [b]) /\
  ((box2 box < PersonDetect.threshold self)%Q <-> after = before) /\
  List.length before =
    List.length (filter (fun r => Qle_bool (PersonDetect.threshold self) (box2 r))
                   outputs).
Proof.
  intros before after.
  assert (Hstep : after =
            if Qle_bool (PersonDetect.threshold self) (box2 box)
            then before ++
                   [mkBox (int (box3 box * inject_Z (shape1 image)))
                      (int (box4 box * inject_Z (shape0 image)))
                      (int (box5 box * inject_Z (shape1 image)))
                      (int (box6 box * inject_Z (shape0 image)))]
            else before).
  { unfold after, before; rewrite preprocess_outputs_snoc; reflexivity. }
  assert (Hkeep : (PersonDetect.threshold self <= box2 box)%Q ->
                  exists b, after = before ++ [b]).
  { intros Hle; apply Qle_bool_iff in Hle; rewrite Hle in Hstep.
    eexists; exact Hstep. }
  assert (Hdrop : (box2 box < PersonDetect.threshold self)%Q -> after = before).
  { intros Hlt; destruct (Qle_bool (PersonDetect.threshold self) (box2 box)) eqn:E.
    - apply Qle_bool_iff in E; exfalso; exact (Qlt_not_le _ _ Hlt E).
    - exact Hstep. }
  assert (Hgrow : forall b, before ++ [b] <> before).
  { intros b Hb; apply (f_equal (@List.length Box)) in Hb.
    rewrite length_app in Hb; simpl in Hb; lia. }
  repeat split.
  - exact Hkeep.
  - intros [b Hb]; destruct (Qlt_le_dec (box2 box) (PersonDetect.threshold self))
      as [Hlt | Hle]; [| exact Hle].
    exfalso; apply (Hgrow b); rewrite <- Hb; exact (Hdrop Hlt).
  - intros Heq; apply Hkeep; rewrite Heq; apply Qle_refl.
  - exact Hdrop.
  - intros Hsame; destruct (Qlt_le_dec (box2 box) (PersonDetect.threshold self))
      as [Hlt | Hle]; [exact Hlt |].
    destruct (Hkeep Hle) as [b Hb].
    exfalso; apply (Hgrow b); rewrite <- Hb; exact Hsame.
  - unfold before, PersonDetect.preprocess_outputs.
    rewrite keep_box_fold_length; reflexivity.
Qed.

Lemma threshold_inclusive_witness :
  ((3 # 5) == PersonDetect.threshold (PersonDetect.mk (3 # 5) (demo_net [])))%Q /\
  exists b,
    PersonDetect.preprocess_outputs (PersonDetect.mk (3 # 5) (demo_net []))
      ([] ++ [mkRow 0 1 (3 # 5) 0 0 1 1]) demo_image
    = PersonDetect.preprocess_outputs (PersonDetect.mk (3 # 5) (demo_net []))
        [] demo_image ++ [b].
Proof.
  assert (Heq : ((3 # 5) ==
                 PersonDetect.threshold (PersonDetect.mk (3 # 5) (demo_net [])))%Q)
    by reflexivity.
  split; [exact Heq |].
  destruct (threshold_inclusive (PersonDetect.mk (3 # 5) (demo_net [])) []
              (mkRow 0 1 (3 # 5) 0 0 1 1) demo_image) as (_ & Hequal & _).
  exact (Hequal Heq).
Defined.

(** C3, as the specification words it, fails: for the row with score 0.9
    and [x1 = 0.7] on a 544 x 320 frame, [x1 * W = 380.8]; the program
    returns [xmin = 380] where rounding gives [381]. *)
Lemma preprocess_outputs_not_rounded :
  PersonDetect.preprocess_outputs (PersonDetect.mk (1 # 2) (demo_net []))
    [demo_row] demo_image = [mkBox 380 64 489 128] /\
  spec_box 544 320 demo_row = mkBox 381 64 490 128 /\
  PersonDetect.preprocess_outputs (PersonDetect.mk (1 # 2) (demo_net []))
    [demo_row] demo_image <> [spec_box 544 320 demo_row].
Proof.
  repeat split; discriminate.
Qed.

(** C3, amended.  A row kept by the threshold yields the pixel box
    [(int(x1*W), int(y1*H), int(x2*W), int(y2*H))], where [int] truncates
    toward zero (the floor, for the non-negative products of normalised
    coordinates), [x1, y1, x2, y2] are the columns [box[3]] .. [box[6]],
    the score is [box[2]], and [W], [H] are the frame's width and height.
    With [W = 544], [H = 320] and threshold 0.5, the row with score 0.9 and
    coordinates 0.1, 0.2, 0.3, 0.4 yields [(54, 64, 163, 128)]. *)
Theorem preprocess_outputs_truncates (self : PersonDetect.t)
  (outputs : list Row) (box : Row) (image : Image) :
  (PersonDetect.threshold self <= box2 box)%Q ->
  (exists b,
      PersonDetect.preprocess_outputs self (outputs ++ [box]) image
        = PersonDetect.preprocess_outputs self outputs image ++ [b] /\
      c0 b = int (box3 box * inject_Z (shape1 image)) /\
      c1 b = int (box4 box * inject_Z (shape0 image)) /\
      c2 b = int (box5 box * inject_Z (shape1 image)) /\
      c3 b = int (box6 box * inject_Z (shape0 image)) /\
      ((0 <= box3 box * inject_Z (shape1 image))%Q ->
         c0 b = Qfloor (box3 box * inject_Z (shape1 image))) /\
      ((0 <= box4 box * inject_Z (shape0 image))%Q ->
         c1 b = Qfloor (box4 box * inject_Z (shape0 image))) /\
      ((0 <= box5 box * inject_Z (shape1 image))%Q ->
         c2 b = Qfloor (box5 box * inject_Z (shape1 image))) /\
      ((0 <= box6 box * inject_Z (shape0 image))%Q ->
         c3 b = Qfloor (box6 box * inject_Z (shape0 image)))) /\
  (forall (image_id label : Q) (net : Image -> Request),
      PersonDetect.preprocess_outputs (PersonDetect.mk (1 # 2) net)
        [mkRow image_id label (9 # 10) (1 # 10) (2 # 10) (3 # 10) (4 # 10)]
        demo_image
      = [mkBox 54 64 163 128]).
Proof.
  intros Hle; split.
  - eexists; split.
    + rewrite preprocess_outputs_snoc; unfold PersonDetect.keep_box.
      apply Qle_bool_iff in Hle; rewrite Hle; reflexivity.
    + cbn [c0 c1 c2 c3]; repeat split; try (intros Hpos; apply int_floor_nonneg; exact Hpos).
  - intros image_id label net; reflexivity.
Qed.

Lemma preprocess_outputs_truncates_witness :
  (PersonDetect.threshold (PersonDetect.mk (1 # 2) (demo_net [])) <= box2 demo_row)%Q /\
  exists b,
    PersonDetect.preprocess_outputs (PersonDetect.mk (1 # 2) (demo_net []))
      ([] ++ [demo_row]) demo_image
    = PersonDetect.preprocess_outputs (PersonDetect.mk (1 # 2) (demo_net []))
        [] demo_image ++ [b] /\
    c0 b = 380.
Proof.
  assert (Hle : (PersonDetect.threshold (PersonDetect.mk (1 # 2) (demo_net []))
                 <= box2 demo_row)%Q)
    by (unfold Qle; simpl; lia).
  split; [exact Hle |].
  destruct (preprocess_outputs_truncates (PersonDetect.mk (1 # 2) (demo_net []))
              [] demo_row demo_image Hle) as ((b & Hb & Hx & _) & _).
  exists b; split; [exact Hb | rewrite Hx; reflexivity].
Defined.

(** ** predict *)

(** C9.  [predict] binds [bounding_boxes] only when [wait] returns 0.  In
    that case it returns the boxes [preprocess_outputs] computes from the
    request's rows together with the frame on which [draw_outputs] has
    drawn them; for every other status the [return] reads the unbound
    name and the call raises [UnboundLocalError]. *)
Theorem predict_needs_wait_zero (self : PersonDetect.t) (image : Image) :
  let request := PersonDetect.net self image in
  let boxes := PersonDetect.preprocess_outputs self (outputs request) image in
  (wait request = 0 ->
     PersonDetect.predict self image
       = Ok (boxes, PersonDetect.draw_outputs boxes image)) /\
  (wait request <> 0 ->
     PersonDetect.predict self image
       = Raise (UnboundLocalError "bounding_boxes")).
Proof.
  intros request boxes; unfold PersonDetect.predict; fold request.
  split; intros Hw.
  - rewrite Hw; reflexivity.
  - apply Z.eqb_neq in Hw; rewrite Hw; reflexivity.
Qed.

Lemma predict_needs_wait_zero_witness :
  wait (PersonDetect.net (PersonDetect.mk (1 # 2) (demo_net [demo_row])) demo_image)
    = 0 /\
  PersonDetect.predict (PersonDetect.mk (1 # 2) (demo_net [demo_row])) demo_image
    = Ok ([mkBox 380 64 489 128],
          mkImage 320 544 [((380, 64), (489, 128))] []) /\
  PersonDetect.predict
    (PersonDetect.mk (1 # 2) (fun _ => mkRequest (-1) [demo_row])) demo_image
    = Raise (UnboundLocalError "bounding_boxes").
Proof.
  assert (Hw : wait (PersonDetect.net
                       (PersonDetect.mk (1 # 2) (demo_net [demo_row])) demo_image)
               = 0) by reflexivity.
  split; [exact Hw |].
  split.
  - exact (proj1 (predict_needs_wait_zero
                    (PersonDetect.mk (1 # 2) (demo_net [demo_row])) demo_image) Hw).
  - apply (proj2 (predict_needs_wait_zero
                    (PersonDetect.mk (1 # 2) (fun _ => mkRequest (-1) [demo_row]))
                    demo_image)).
    discriminate.
Defined.

(** ** The text overlay *)

Lemma texts_put_lines (kvs : list (Z * Z)) (max_people : Z) :
  forall (y_pixel : Z) (image : Image),
    texts (put_lines kvs max_people y_pixel image) =
    texts image ++ lines kvs max_people y_pixel.
Proof.
  induction kvs as [| [k v] kvs IH]; intros y_pixel image; cbn [put_lines lines].
  - rewrite app_nil_r; reflexivity.
  - rewrite IH; cbn [cv2_putText texts]; rewrite <- app_assoc; reflexivity.
Qed.

Lemma length_lines (kvs : list (Z * Z)) (max_people : Z) :
  forall y_pixel : Z,
    List.length (lines kvs max_people y_pixel) = List.length kvs.
Proof.
  induction kvs as [| [k v] kvs IH]; intros y_pixel; cbn [lines List.length].
  - reflexivity.
  - rewrite IH; reflexivity.
Qed.

Lemma length_tally (coords qs : list Box) (i : nat) :
  List.length (tally coords qs i) = List.length qs.
Proof.
  revert i; induction qs as [| q qs IH]; intros i; cbn [tally List.length].
  - reflexivity.
  - rewrite IH; reflexivity.
Qed.

Lemma nth_error_lines_tally (coords qs : list Box) (max_people : Z) :
  forall (i j : nat) (y_pixel : Z) (z : Box),
    nth_error qs j = Some z ->
    nth_error (lines (tally coords qs i) max_people y_pixel) j =
    Some (line_text max_people (Z.of_nat (i + j) + 1) (hits coords z),
          (15, y_pixel + 40 * Z.of_nat j)).
Proof.
  induction qs as [| q qs IH]; intros i j y_pixel z Hj.
  - destruct j; discriminate Hj.
  - destruct j as [| j]; cbn [tally lines nth_error] in *.
    + injection Hj as ->.
      replace (i + 0)%nat with i by lia.
      replace (y_pixel + 40 * Z.of_nat 0) with y_pixel by lia.
      reflexivity.
    + rewrite (IH (S i) j (y_pixel + 40) z Hj).
      replace (S i + j)%nat with (i + S j)%nat by lia.
      replace (y_pixel + 40 + 40 * Z.of_nat j)
        with (y_pixel + 40 * Z.of_nat (S j)) by lia.
      reflexivity.
Qed.

(** C7.  For the zone [z] registered at position [i] (zone [K = i + 1])
    the overlay draws, as its [i]-th line, the text
    "No. of People in Queue K is V " with [V] the count of [z], followed
    on the same line by the "Queue full" notice exactly when
    [V >= max_people]; the line is put at [(15, 25 + 40 * i)], so the
    first line is at height 25 and each later line 40 pixels lower, and
    there is one line per registered zone.  Since line [i] carries the
    count of the zone registered at position [i], registering the zones
    in another order reorders the lines accordingly. *)
Theorem overlay_lines_in_registration_order
  (self : Queue.t) (coords : list Box) (max_people : Z) (image : Image) :
  exists num_people,
    Queue.check_coords self coords = Ok num_people /\
    List.length (texts (overlay num_people max_people image)) =
      (List.length (texts image) + List.length (Queue.queues self))%nat /\
    forall i z,
      nth_error (Queue.queues self) i = Some z ->
      let K := Z.of_nat i + 1 in
      let V := Z.of_nat (List.length
                 (filter (fun c => (c0 c >? c0 z) && (c2 c <? c2 z)) coords)) in
      let line :=
        ("No. of People in Queue " ++ str K ++ " is " ++ str V ++ " ")%string in
      dict_get num_people K = Some V /\
      nth_error (texts (overlay num_people max_people image))
        (List.length (texts image) + i) =
      Some (if V >=? max_people
            then (line ++ " Queue full; Please move to next Queue ")%string
            else line,
            (15, 25 + 40 * Z.of_nat i)).
Proof.
  exists (tally coords (Queue.queues self) 0).
  split; [apply check_coords_tally |].
  split.
  - unfold overlay, items.
    rewrite texts_put_lines, length_app, length_lines, length_tally; reflexivity.
  - intros i z Hz K V line; split.
    + exact (dict_get_tally coords _ 0 i z Hz).
    + unfold overlay, items.
      rewrite texts_put_lines, nth_error_app2 by lia.
      replace (List.length (texts image) + i - List.length (texts image))%nat
        with i by lia.
      rewrite (nth_error_lines_tally coords _ max_people 0 i 25 z Hz).
      reflexivity.
Qed.

Lemma overlay_lines_in_registration_order_witness :
  texts (overlay [(1, 2); (2, 1)] 2 demo_image) =
    [("No. of People in Queue 1 is 2  Queue full; Please move to next Queue "%string,
      (15, 25));
     ("No. of People in Queue 2 is 1 "%string, (15, 65))] /\
  exists num_people,
    Queue.check_coords (Queue.mk [demo_wide_zone; demo_narrow_zone]) demo_coords
      = Ok num_people /\
    nth_error (texts (overlay num_people 2 demo_image)) 1 =
      Some ("No. of People in Queue 2 is 1 "%string, (15, 65)).
Proof.
  split; [reflexivity |].
  destruct (overlay_lines_in_registration_order
              (Queue.mk [demo_wide_zone; demo_narrow_zone]) demo_coords 2
              demo_image) as (num_people & Hd & _ & Hline).
  exists num_people; split; [exact Hd |].
  exact (proj2 (Hline 1%nat demo_narrow_zone eq_refl)).
Defined.

(** Swapping the two zones swaps the two lines' counts. *)
Example overlay_swapped_registration :
  exists num_people,
    Queue.check_coords (Queue.mk [demo_narrow_zone; demo_wide_zone]) demo_coords
      = Ok num_people /\
    texts (overlay num_people 2 demo_image) =
      [("No. of People in Queue 1 is 1 "%string, (15, 25));
       ("No. of People in Queue 2 is 2  Queue full; Please move to next Queue "%string,
        (15, 65))].
Proof.
  eexists; split; reflexivity.
Qed.

(** ** The statistics file *)

(** [round] moves a number by at most one half. *)
Lemma round_nearest (x : Q) : (Qabs (inject_Z (round x) - x) <= 1 # 2)%Q.
Proof.
  pose proof (Qfloor_le x) as Hlo.
  pose proof (Qlt_floor x) as Hhi.
  rewrite inject_Z_plus in Hhi.
  apply Qabs_Qle_condition; unfold round.
  destruct (Qcompare_spec (x - inject_Z (Qfloor x)) (1 # 2)) as [E | E | E];
    [destruct (Z.even (Qfloor x)) | |];
    rewrite ?inject_Z_plus;
    change (inject_Z 1) with 1%Q in *;
    generalize dependent (inject_Z (Qfloor x)); intros f Hlo Hhi E; lra.
Qed.

Lemma round1_tenths (x : Q) :
  (round1 x * inject_Z 10 == inject_Z (round (x * inject_Z 10)))%Q.
Proof.
  unfold round1; field.
Qed.

Lemma round1_close (x : Q) : (Qabs (round1 x - x) <= 1 # 20)%Q.
Proof.
  pose proof (round_nearest (x * inject_Z 10)) as Hr.
  rewrite <- round1_tenths in Hr.
  apply Qabs_Qle_condition in Hr; apply Qabs_Qle_condition.
  change (inject_Z 10) with 10%Q in Hr.
  generalize dependent (round1 x); intros r Hr; lra.
Qed.

Lemma append_assoc (s1 s2 s3 : string) :
  ((s1 ++ s2) ++ s3 = s1 ++ (s2 ++ s3))%string.
Proof.
  induction s1 as [| a s1 IH]; simpl; [reflexivity | rewrite IH; reflexivity].
Qed.

(** A loop that ends without an exception has counted every frame. *)
Lemma frame_loop_counter (pd : PersonDetect.t) (queue : Queue.t)
  (max_people : Z) (frames : list Image) :
  forall st : Run,
    snd (frame_loop pd queue max_people frames st) = None ->
    counter (fst (frame_loop pd queue max_people frames st))
      = counter st + Z.of_nat (List.length frames).
Proof.
  induction frames as [| frame frames IH]; intros st Hrun.
  - cbn [frame_loop fst List.length]; lia.
  - cbn [frame_loop] in *.
    destruct (process_frame pd queue max_people frame)
      as [[num_people image] | e].
    + rewrite (IH _ Hrun); cbn [counter List.length]; lia.
    + discriminate Hrun.
Qed.

(** C6, as the specification words it, fails: for 10 frames in 1.04 s the
    file holds the time 1.0 and the rate 10.0, which is 10 divided by the
    rounded time and not [frame_count / total_inference_seconds]
    (about 9.6). *)
Lemma stats_fps_divides_by_rounded_time :
  exists t fps,
    stats_values 10 (26 # 25) (3 # 2) = Ok [t; fps; 3 # 2] /\
    (t == 1)%Q /\ (fps == 10)%Q /\
    ~ (fps == spec_average_fps 10 (26 # 25))%Q.
Proof.
  eexists; eexists; split; [reflexivity |].
  repeat split; discriminate.
Qed.

(** When the rounded time is [0.0] the division raises and nothing is
    written. *)
Example stats_zero_time :
  forall repr, stats_file repr 0 (1 # 100) (3 # 2) = Raise ZeroDivisionError.
Proof. reflexivity. Qed.

(** A frame whose request does not complete ends the run: the error line
    is printed and no statistics are written. *)
Example main_wait_nonzero :
  forall repr,
    main repr (PersonDetect.mk (1 # 2) (fun _ => mkRequest 1 [demo_row]))
      demo_args (3 # 2) (26 # 25)
    = mkOutput [run_error] [] None.
Proof. reflexivity. Qed.

(** C6, amended.  When the frame loop ends without an exception and the
    total inference time rounded to one decimal place is not zero, [main]
    writes [stats.txt] with exactly three lines, in this order: the total
    inference time rounded to one decimal place (a multiple of a tenth
    within 0.05 of the measured time), the average rate, which is the
    number of frames divided by that rounded time, and the model load
    time. *)
Theorem stats_file_three_lines (repr : Q -> string) (pd : PersonDetect.t)
  (args : Args) (total_model_load_time total_time : Q) :
  snd (run_loop pd args) = None ->
  ~ (round1 total_time == 0)%Q ->
  let frame_count := Z.of_nat (List.length (video args)) in
  let total_inference_time := round1 total_time in
  let average_fps := (inject_Z frame_count / total_inference_time)%Q in
  counter (fst (run_loop pd args)) = frame_count /\
  stats_values frame_count total_time total_model_load_time
    = Ok [total_inference_time; average_fps; total_model_load_time] /\
  stats_txt (main repr pd args total_model_load_time total_time)
    = Some (repr total_inference_time ++ newline ++
            repr average_fps ++ newline ++
            repr total_model_load_time ++ newline)%string /\
  (total_inference_time * inject_Z 10
     == inject_Z (round (total_time * inject_Z 10)))%Q /\
  (Qabs (total_inference_time - total_time) <= 1 # 20)%Q.
Proof.
  intros Hrun Hnz frame_count total_inference_time average_fps.
  assert (Hc : counter (fst (run_loop pd args)) = frame_count).
  { unfold run_loop in *.
    rewrite (frame_loop_counter _ _ _ _ _ Hrun); cbn [counter]; reflexivity. }
  assert (Hv : stats_values frame_count total_time total_model_load_time
               = Ok [total_inference_time; average_fps; total_model_load_time]).
  { unfold stats_values; fold total_inference_time.
    destruct (Qeq_bool total_inference_time 0) eqn:E; [| reflexivity].
    apply Qeq_bool_iff in E; contradiction. }
  split; [exact Hc |].
  split; [exact Hv |].
  split.
  - unfold main.
    destruct (run_loop pd args) as [st raised]; cbn [fst snd] in Hrun, Hc.
    subst raised; rewrite Hc.
    unfold stats_file; rewrite Hv, bind_Ok.
    cbn [fold_left stats_txt]; unfold write_line; cbn [append].
    rewrite !append_assoc; reflexivity.
  - split; [apply round1_tenths | apply round1_close].
Qed.

Lemma stats_file_three_lines_witness :
  snd (run_loop (PersonDetect.mk (1 # 2) (demo_net [demo_row])) demo_args) = None /\
  ~ (round1 (26 # 25) == 0)%Q /\
  forall repr,
    stats_txt (main repr (PersonDetect.mk (1 # 2) (demo_net [demo_row]))
                 demo_args (3 # 2) (26 # 25))
    = Some (repr (round1 (26 # 25)) ++ newline ++
            repr (inject_Z (Z.of_nat 2) / round1 (26 # 25))%Q ++ newline ++
            repr (3 # 2) ++ newline)%string.
Proof.
  assert (Hrun : snd (run_loop (PersonDetect.mk (1 # 2) (demo_net [demo_row]))
                        demo_args) = None) by reflexivity.
  assert (Hnz : ~ (round1 (26 # 25) == 0)%Q) by discriminate.
  split; [exact Hrun |].
  split; [exact Hnz |].
  intros repr.
  destruct (stats_file_three_lines repr
              (PersonDetect.mk (1 # 2) (demo_net [demo_row])) demo_args
              (3 # 2) (26 # 25) Hrun Hnz) as (_ & _ & Hfile & _).
  exact Hfile.
Defined.

(** * Further properties of the program *)

(** ** Slices *)

Lemma slice_index_range (n i : Z) : 0 <= n -> 0 <= slice_index n i <= n.
Proof.
  unfold slice_index; intros Hn; destruct (Z.ltb_spec i 0); lia.
Qed.

Lemma slice_index_nonneg (n i : Z) : 0 <= i -> slice_index n i = Z.min i n.
Proof.
  unfold slice_index; intros Hi; destruct (Z.ltb_spec i 0); [lia | reflexivity].
Qed.

Lemma length_py_slice {A : Type} (l : list A) (i j : Z) :
  List.length (py_slice l i j) =
  Z.to_nat (slice_index (Z.of_nat (List.length l)) j
            - slice_index (Z.of_nat (List.length l)) i).
Proof.
  unfold py_slice.
  pose proof (slice_index_range (Z.of_nat (List.length l)) i ltac:(lia)) as Hi.
  pose proof (slice_index_range (Z.of_nat (List.length l)) j ltac:(lia)) as Hj.
  rewrite length_firstn, length_skipn; lia.
Qed.

Lemma nth_error_py_slice {A : Type} (l : list A) (i j : Z) (r : nat) :
  0 <= i ->
  (Z.of_nat r < slice_index (Z.of_nat (List.length l)) j - i) ->
  nth_error (py_slice l i j) r = nth_error l (Z.to_nat i + r).
Proof.
  intros Hi Hr; unfold py_slice.
  pose proof (slice_index_range (Z.of_nat (List.length l)) j ltac:(lia)) as Hj.
  assert (Hstart : slice_index (Z.of_nat (List.length l)) i = i).
  { rewrite slice_index_nonneg by exact Hi; lia. }
  rewrite Hstart, nth_error_firstn.
  destruct (Nat.ltb_spec r (Z.to_nat (slice_index (Z.of_nat (List.length l)) j - i)));
    [| lia].
  apply nth_error_skipn.
Qed.

Lemma In_py_slice {A : Type} (l : list A) (i j : Z) (x : A) :
  In x (py_slice l i j) -> In x l.
Proof.
  unfold py_slice; intros Hx.
  set (a := Z.to_nat (slice_index (Z.of_nat (List.length l)) i)) in *.
  set (k := Z.to_nat _) in Hx.
  rewrite <- (firstn_skipn a l); apply in_or_app; right.
  rewrite <- (firstn_skipn k (skipn a l)); apply in_or_app; left; exact Hx.
Qed.

(** ** get_queues *)

(** X1.  For the zone registered at position [i], with non-negative
    coordinates, [get_queues] yields as its [i]-th frame a crop with
    [min(y_max, H) - min(y_min, H)] rows of
    [min(x_max, W) - min(x_min, W)] pixels each, [H] and [W] being the
    height and width of the image: a zone reaching beyond the image is
    clamped to it, and there is one frame per zone, in registration
    order. *)
Theorem get_queues_crop_size {A : Type} (self : Queue.t)
  (image : list (list A)) (W : nat) (i : nat) (q : Box) :
  nth_error (Queue.queues self) i = Some q ->
  rectangular W image ->
  0 <= c0 q -> 0 <= c1 q -> 0 <= c2 q -> 0 <= c3 q ->
  List.length (Queue.get_queues self image) = List.length (Queue.queues self) /\
  exists frame,
    nth_error (Queue.get_queues self image) i = Some frame /\
    Z.of_nat (List.length frame) =
      Z.max 0 (Z.min (c3 q) (Z.of_nat (List.length image))
               - Z.min (c1 q) (Z.of_nat (List.length image))) /\
    Forall (fun row =>
              Z.of_nat (List.length row) =
              Z.max 0 (Z.min (c2 q) (Z.of_nat W) - Z.min (c0 q) (Z.of_nat W)))
      frame.
Proof.
  intros Hq Hrect Hx0 Hy0 Hx1 Hy1; unfold Queue.get_queues.
  split; [apply length_map |].
  eexists; split; [rewrite nth_error_map, Hq; reflexivity |]; cbv zeta.
  split.
  - rewrite length_map, length_py_slice, !slice_index_nonneg by assumption; lia.
  - apply Forall_map, Forall_forall; intros row Hrow.
    pose proof (In_py_slice _ _ _ _ Hrow) as Hin.
    unfold rectangular in Hrect; rewrite Forall_forall in Hrect.
    rewrite length_py_slice, (Hrect row Hin), !slice_index_nonneg by assumption.
    lia.
Qed.

Lemma get_queues_crop_size_witness :
  exists frame,
    nth_error (Queue.get_queues (Queue.mk [mkBox 1 1 9 2]) demo_pixels) 0
      = Some frame /\
    Z.of_nat (List.length frame) = 1 /\
    Forall (fun row => Z.of_nat (List.length row) = 3) frame.
Proof.
  destruct (get_queues_crop_size (Queue.mk [mkBox 1 1 9 2]) demo_pixels 4 0
              (mkBox 1 1 9 2)) as (_ & frame & Hf & Hrows & Hcols).
  - reflexivity.
  - repeat constructor.
  - simpl; lia.
  - simpl; lia.
  - simpl; lia.
  - simpl; lia.
  - exists frame; split; [exact Hf |]; split; [exact Hrows | exact Hcols].
Defined.

Lemma nth_error_py_slice_nonneg {A : Type} (l : list A) (i j : Z) (r : nat) :
  0 <= i -> 0 <= j ->
  nth_error (py_slice l i j) r =
  if Z.of_nat r <? j - i then nth_error l (Z.to_nat i + r) else None.
Proof.
  intros Hi Hj.
  pose proof (length_py_slice l i j) as Hlen.
  rewrite !slice_index_nonneg in Hlen by assumption.
  destruct (Z.ltb_spec (Z.of_nat r) (j - i)) as [Hr | Hr].
  - destruct (Z_lt_le_dec (i + Z.of_nat r) (Z.of_nat (List.length l))) as [Hin | Hout].
    + apply nth_error_py_slice; [exact Hi |].
      rewrite slice_index_nonneg by exact Hj; lia.
    + transitivity (@None A).
      * apply nth_error_None; lia.
      * symmetry; apply nth_error_None; lia.
  - apply nth_error_None; lia.
Qed.

(** X2.  For a zone with non-negative coordinates the crop [get_queues]
    yields holds the pixels of the zone's rectangle and nothing else:
    its pixel [(r, c)] is the image's pixel [(y_min + r, x_min + c)] when
    [r < y_max - y_min] and [c < x_max - x_min], and there is no such
    pixel otherwise. *)
Theorem get_queues_crop_pixels {A : Type} (self : Queue.t)
  (image : list (list A)) (i : nat) (q : Box) :
  nth_error (Queue.queues self) i = Some q ->
  0 <= c0 q -> 0 <= c1 q -> 0 <= c2 q -> 0 <= c3 q ->
  exists frame,
    nth_error (Queue.get_queues self image) i = Some frame /\
    forall r c,
      pixel_at frame r c =
      if (Z.of_nat r <? c3 q - c1 q) && (Z.of_nat c <? c2 q - c0 q)
      then pixel_at image (Z.to_nat (c1 q) + r) (Z.to_nat (c0 q) + c)
      else None.
Proof.
  intros Hq Hx0 Hy0 Hx1 Hy1; unfold Queue.get_queues.
  eexists; split; [rewrite nth_error_map, Hq; reflexivity |]; cbv zeta.
  intros r c; unfold pixel_at.
  rewrite nth_error_map, nth_error_py_slice_nonneg by assumption.
  destruct (Z.of_nat r <? c3 q - c1 q); [| reflexivity].
  destruct (nth_error image (Z.to_nat (c1 q) + r)) as [row |]; cbn [option_map andb].
  - apply nth_error_py_slice_nonneg; assumption.
  - destruct (Z.of_nat c <? c2 q - c0 q); reflexivity.
Qed.

Lemma get_queues_crop_pixels_witness :
  exists frame,
    nth_error (Queue.get_queues (Queue.mk [mkBox 1 1 3 3]) demo_pixels) 0
      = Some frame /\
    pixel_at frame 1 0 = Some 32 /\
    pixel_at frame 0 2 = None.
Proof.
  destruct (get_queues_crop_pixels (Queue.mk [mkBox 1 1 3 3]) demo_pixels 0
              (mkBox 1 1 3 3)) as (frame & Hf & Hpx).
  - reflexivity.
  - simpl; lia.
  - simpl; lia.
  - simpl; lia.
  - simpl; lia.
  - exists frame; split; [exact Hf |]; split.
    + rewrite Hpx; reflexivity.
    + rewrite Hpx; reflexivity.
Defined.

Lemma py_slice_empty {A : Type} (l : list A) (i j : Z) :
  0 <= i -> 0 <= j -> j <= i -> py_slice l i j = [].
Proof.
  intros Hi Hj Hji; apply length_zero_iff_nil.
  rewrite length_py_slice, !slice_index_nonneg by assumption; lia.
Qed.

(** X3.  A zone that is empty or inverted, which [add_queue] accepts,
    makes [get_queues] yield an empty crop instead of failing: with
    [y_max <= y_min] the crop has no rows, and with [x_max <= x_min] all
    its rows are empty (coordinates non-negative). *)
Theorem get_queues_inverted_zone_empty {A : Type} (self : Queue.t)
  (image : list (list A)) (i : nat) (q : Box) :
  nth_error (Queue.queues self) i = Some q ->
  0 <= c0 q -> 0 <= c1 q -> 0 <= c2 q -> 0 <= c3 q ->
  exists frame,
    nth_error (Queue.get_queues self image) i = Some frame /\
    (c3 q <= c1 q -> frame = []) /\
    (c2 q <= c0 q -> Forall (fun row => row = []) frame).
Proof.
  intros Hq Hx0 Hy0 Hx1 Hy1; unfold Queue.get_queues.
  eexists; split; [rewrite nth_error_map, Hq; reflexivity |]; cbv zeta.
  split.
  - intros Hy; rewrite py_slice_empty by assumption; reflexivity.
  - intros Hx; apply Forall_map, Forall_forall; intros row _.
    apply py_slice_empty; assumption.
Qed.

Lemma get_queues_inverted_zone_empty_witness :
  exists frame,
    nth_error (Queue.get_queues (Queue.mk [demo_inverted_zone]) demo_pixels) 0
      = Some frame /\
    Forall (fun row => row = []) frame.
Proof.
  destruct (get_queues_inverted_zone_empty (Queue.mk [demo_inverted_zone])
              demo_pixels 0 demo_inverted_zone)
    as (frame & Hf & _ & Hcols).
  - reflexivity.
  - simpl; lia.
  - simpl; lia.
  - simpl; lia.
  - simpl; lia.
  - exists frame; split; [exact Hf | apply Hcols; simpl; lia].
Defined.

Lemma py_slice_negative_start {A : Type} (l : list A) (i j : Z) :
  - Z.of_nat (List.length l) <= i < 0 ->
  py_slice l i j = py_slice l (i + Z.of_nat (List.length l)) j.
Proof.
  intros Hi; unfold py_slice.
  replace (slice_index (Z.of_nat (List.length l)) (i + Z.of_nat (List.length l)))
    with (slice_index (Z.of_nat (List.length l)) i); [reflexivity |].
  unfold slice_index.
  destruct (Z.ltb_spec i 0), (Z.ltb_spec (i + Z.of_nat (List.length l)) 0); lia.
Qed.

(** X4.  A negative [y_min] does not make [get_queues] fail: when it is
    no smaller than [-H] it is counted from the bottom of the image, so
    the zone yields the crop of the zone whose [y_min] is [y_min + H]. *)
Theorem get_queues_negative_y_min {A : Type} (self : Queue.t)
  (image : list (list A)) (i : nat) (q : Box) :
  nth_error (Queue.queues self) i = Some q ->
  - Z.of_nat (List.length image) <= c1 q < 0 ->
  nth_error (Queue.get_queues self image) i =
  nth_error
    (Queue.get_queues
       (Queue.mk [with_y_min q (c1 q + Z.of_nat (List.length image))]) image) 0.
Proof.
  intros Hq Hy; unfold Queue.get_queues.
  rewrite nth_error_map, Hq; cbn [Queue.queues map nth_error option_map].
  cbn [with_y_min c0 c1 c2 c3].
  rewrite <- py_slice_negative_start by exact Hy; reflexivity.
Qed.

Lemma get_queues_negative_y_min_witness :
  nth_error (Queue.get_queues (Queue.mk [mkBox 0 (-1) 2 3]) demo_pixels) 0
    = Some [[31; 32]].
Proof.
  rewrite (get_queues_negative_y_min (Queue.mk [mkBox 0 (-1) 2 3]) demo_pixels 0
             (mkBox 0 (-1) 2 3)).
  - reflexivity.
  - reflexivity.
  - simpl; lia.
Defined.

(** ** More on zone evaluation *)

Lemma hits_le_length (coords : list Box) (q : Box) :
  hits coords q <= Z.of_nat (List.length coords).
Proof.
  unfold hits; pose proof (filter_length_le (fun c => Queue.inside c q) coords).
  lia.
Qed.

Lemma In_tally (coords qs : list Box) (i : nat) (k v : Z) :
  In (k, v) (tally coords qs i) -> exists q, In q qs /\ v = hits coords q.
Proof.
  revert i; induction qs as [| q qs IH]; intros i; cbn [tally].
  - intros [].
  - intros [E | Hin].
    + injection E as _ <-; exists q; split; [left |]; reflexivity.
    + destruct (IH _ Hin) as (q' & Hq' & Hv).
      exists q'; split; [right |]; assumption.
Qed.

(** X5.  Every count [check_coords] reports lies between 0 and the number
    of detections in the frame. *)
Theorem check_coords_counts_bounded (self : Queue.t) (coords : list Box) :
  exists d,
    Queue.check_coords self coords = Ok d /\
    forall k v, In (k, v) (items d) -> 0 <= v <= Z.of_nat (List.length coords).
Proof.
  exists (tally coords (Queue.queues self) 0).
  split; [apply check_coords_tally |].
  intros k v Hin; destruct (In_tally _ _ _ _ _ Hin) as (q & _ & ->).
  split; [apply hits_nonneg | apply hits_le_length].
Qed.

Lemma check_coords_counts_bounded_witness :
  exists d,
    Queue.check_coords (Queue.mk [demo_wide_zone; demo_narrow_zone]) demo_coords
      = Ok d /\
    0 <= 2 <= Z.of_nat (List.length demo_coords).
Proof.
  destruct (check_coords_counts_bounded
              (Queue.mk [demo_wide_zone; demo_narrow_zone]) demo_coords)
    as (d & Hd & Hbound).
  exists d; split; [exact Hd |].
  apply (Hbound 1 2).
  rewrite check_coords_tally in Hd; injection Hd as <-; left; reflexivity.
Defined.

Lemma hits_permutation (coords coords' : list Box) (q : Box) :
  Permutation coords coords' -> hits coords q = hits coords' q.
Proof.
  induction 1 as [| c l l' _ IH | c c' l | l l' l'' _ IH1 _ IH2].
  - reflexivity.
  - rewrite !hits_cons, IH; reflexivity.
  - rewrite !hits_cons; lia.
  - rewrite IH1; exact IH2.
Qed.

Lemma tally_ext (coords coords' qs : list Box) (i : nat) :
  (forall q, In q qs -> hits coords q = hits coords' q) ->
  tally coords qs i = tally coords' qs i.
Proof.
  revert i; induction qs as [| q qs IH]; intros i Hq; cbn [tally].
  - reflexivity.
  - rewrite (Hq q) by (left; reflexivity).
    rewrite IH; [reflexivity |].
    intros q' Hq'; apply Hq; right; exact Hq'.
Qed.

(** X6.  The occupancy does not depend on the order of the detections:
    two lists of detections that are permutations of each other give the
    same mapping. *)
Theorem check_coords_permutation (self : Queue.t) (coords coords' : list Box) :
  Permutation coords coords' ->
  Queue.check_coords self coords = Queue.check_coords self coords'.
Proof.
  intros Hp; rewrite !check_coords_tally; f_equal.
  apply tally_ext; intros q _; apply hits_permutation; exact Hp.
Qed.

Lemma check_coords_permutation_witness :
  Queue.check_coords (Queue.mk [demo_wide_zone; demo_narrow_zone])
    [mkBox 10 5 20 40; mkBox 110 5 120 40]
  = Queue.check_coords (Queue.mk [demo_wide_zone; demo_narrow_zone])
      [mkBox 110 5 120 40; mkBox 10 5 20 40].
Proof.
  apply check_coords_permutation, perm_swap.
Defined.

Lemma hits_app (coords coords' : list Box) (q : Box) :
  hits (coords ++ coords') q = hits coords q + hits coords' q.
Proof.
  unfold hits; rewrite filter_app, length_app; lia.
Qed.

(** X7.  Counts add up over batches of detections: for every registered
    zone, the count for the detections [coords ++ coords'] is the sum of
    the counts for [coords] and for [coords']. *)
Theorem check_coords_app (self : Queue.t) (coords coords' : list Box)
  (i : nat) (z : Box) :
  nth_error (Queue.queues self) i = Some z ->
  exists d d' d'' n n',
    Queue.check_coords self coords = Ok d /\
    Queue.check_coords self coords' = Ok d' /\
    Queue.check_coords self (coords ++ coords') = Ok d'' /\
    dict_get d (Z.of_nat i + 1) = Some n /\
    dict_get d' (Z.of_nat i + 1) = Some n' /\
    dict_get d'' (Z.of_nat i + 1) = Some (n + n').
Proof.
  intros Hz.
  exists (tally coords (Queue.queues self) 0),
         (tally coords' (Queue.queues self) 0),
         (tally (coords ++ coords') (Queue.queues self) 0),
         (hits coords z), (hits coords' z).
  rewrite <- hits_app.
  repeat split; try apply check_coords_tally;
    exact (dict_get_tally _ _ 0 i z Hz).
Qed.

Lemma check_coords_app_witness :
  nth_error (Queue.queues (Queue.mk [demo_wide_zone])) 0 = Some demo_wide_zone /\
  exists d d' d'' n n',
    Queue.check_coords (Queue.mk [demo_wide_zone]) demo_coords = Ok d /\
    Queue.check_coords (Queue.mk [demo_wide_zone]) [demo_tall_detection] = Ok d' /\
    Queue.check_coords (Queue.mk [demo_wide_zone])
      (demo_coords ++ [demo_tall_detection]) = Ok d'' /\
    dict_get d (Z.of_nat 0 + 1) = Some n /\
    dict_get d' (Z.of_nat 0 + 1) = Some n' /\
    dict_get d'' (Z.of_nat 0 + 1) = Some (n + n').
Proof.
  split; [reflexivity |].
  apply (check_coords_app (Queue.mk [demo_wide_zone]) demo_coords
           [demo_tall_detection] 0 demo_wide_zone).
  reflexivity.
Defined.

Lemma dict_get_None_iff (d : dict) (k : Z) :
  dict_get d k = None <-> ~ In k (keys d).
Proof.
  induction d as [| [k' v] d IH]; cbn [dict_get keys map fst In].
  - split; [intros _ [] | reflexivity].
  - destruct (Z.eqb_spec k' k) as [-> | Hne].
    + split; [discriminate | intros H; exfalso; apply H; left; reflexivity].
    + rewrite IH; unfold keys; tauto.
Qed.

(** X8.  The mapping [check_coords] returns can be read exactly at the
    zone numbers [1 .. N]: a lookup at any other key finds nothing (in
    Python, [d[k]] raises [KeyError]), and no key occurs twice. *)
Theorem check_coords_lookup_domain (self : Queue.t) (coords : list Box) :
  exists d,
    Queue.check_coords self coords = Ok d /\
    NoDup (keys d) /\
    forall k,
      dict_get d k = None <->
      ~ (1 <= k <= Z.of_nat (List.length (Queue.queues self))).
Proof.
  exists (tally coords (Queue.queues self) 0).
  split; [apply check_coords_tally |].
  rewrite keys_tally; split.
  - apply Finite.Injective_map_NoDup; [| apply seq_NoDup].
    intros a b Hab; lia.
  - intros k; rewrite dict_get_None_iff, keys_tally, in_map_iff.
    split.
    + intros Hnot Hk; apply Hnot; exists (Z.to_nat (k - 1)).
      split; [lia | apply in_seq; lia].
    + intros Hnot (a & <- & Ha); apply in_seq in Ha; apply Hnot; lia.
Qed.

Lemma check_coords_lookup_domain_witness :
  exists d,
    Queue.check_coords (Queue.mk [demo_wide_zone; demo_narrow_zone]) demo_coords
      = Ok d /\
    dict_get d 3 = None /\ dict_get d 0 = None.
Proof.
  destruct (check_coords_lookup_domain
              (Queue.mk [demo_wide_zone; demo_narrow_zone]) demo_coords)
    as (d & Hd & _ & Hdom).
  exists d; split; [exact Hd |].
  split; apply Hdom; simpl; lia.
Defined.

(** X9.  A zone less than two pixels wide, and so every zone with
    [x_max <= x_min] that [add_queue] lets in, is reported as empty
    whenever the detections are well formed ([xmin <= xmax]). *)
Theorem check_coords_narrow_zone_counts_nothing (self : Queue.t)
  (coords : list Box) (i : nat) (z : Box) :
  nth_error (Queue.queues self) i = Some z ->
  c2 z - c0 z < 2 ->
  (forall c, In c coords -> c0 c <= c2 c) ->
  exists d,
    Queue.check_coords self coords = Ok d /\
    dict_get d (Z.of_nat i + 1) = Some 0.
Proof.
  intros Hz Hnarrow Hwf.
  exists (tally coords (Queue.queues self) 0).
  split; [apply check_coords_tally |].
  pose proof (dict_get_tally coords _ 0 i z Hz) as Hg; cbn [Nat.add] in Hg.
  rewrite Hg, hits_zero; [reflexivity |].
  intros c Hc; specialize (Hwf c Hc).
  destruct (Queue.inside c z) eqn:E; [| reflexivity].
  apply inside_iff in E; lia.
Qed.

Lemma check_coords_narrow_zone_counts_nothing_witness :
  exists d,
    Queue.check_coords (Queue.mk [demo_wide_zone; demo_inverted_zone])
      [mkBox 6 0 8 10; mkBox 7 0 7 10] = Ok d /\
    dict_get d (Z.of_nat 1 + 1) = Some 0.
Proof.
  apply (check_coords_narrow_zone_counts_nothing
           (Queue.mk [demo_wide_zone; demo_inverted_zone])
           [mkBox 6 0 8 10; mkBox 7 0 7 10] 1 demo_inverted_zone).
  - reflexivity.
  - simpl; lia.
  - intros c [<- | [<- | []]]; simpl; lia.
Defined.

Lemma hits_monotone (coords : list Box) (a b : Box) :
  c0 b <= c0 a -> c2 a <= c2 b -> hits coords a <= hits coords b.
Proof.
  intros Hl Hr; induction coords as [| c coords IH].
  - reflexivity.
  - rewrite !hits_cons.
    destruct (Queue.inside c a) eqn:Ea; destruct (Queue.inside c b) eqn:Eb;
      try lia.
    apply inside_iff in Ea.
    assert (Hb : Queue.inside c b = true) by (apply inside_iff; lia).
    congruence.
Qed.

(** X10.  Counts are monotone in the zone: if zone [a] lies horizontally
    within zone [b] ([b.x_min <= a.x_min] and [a.x_max <= b.x_max]), the
    count reported for [a] is at most the count reported for [b]. *)
Theorem check_coords_nested_zones (self : Queue.t) (coords : list Box)
  (i j : nat) (a b : Box) :
  nth_error (Queue.queues self) i = Some a ->
  nth_error (Queue.queues self) j = Some b ->
  c0 b <= c0 a -> c2 a <= c2 b ->
  exists d na nb,
    Queue.check_coords self coords = Ok d /\
    dict_get d (Z.of_nat i + 1) = Some na /\
    dict_get d (Z.of_nat j + 1) = Some nb /\
    na <= nb.
Proof.
  intros Ha Hb Hl Hr.
  exists (tally coords (Queue.queues self) 0), (hits coords a), (hits coords b).
  split; [apply check_coords_tally |].
  split; [exact (dict_get_tally coords _ 0 i a Ha) |].
  split; [exact (dict_get_tally coords _ 0 j b Hb) |].
  apply hits_monotone; assumption.
Qed.

Lemma check_coords_nested_zones_witness :
  exists d na nb,
    Queue.check_coords (Queue.mk [demo_wide_zone; demo_narrow_zone]) demo_coords
      = Ok d /\
    dict_get d (Z.of_nat 1 + 1) = Some na /\
    dict_get d (Z.of_nat 0 + 1) = Some nb /\
    na <= nb.
Proof.
  apply (check_coords_nested_zones
           (Queue.mk [demo_wide_zone; demo_narrow_zone]) demo_coords 1 0
           demo_narrow_zone demo_wide_zone).
  - reflexivity.
  - reflexivity.
  - simpl; lia.
  - simpl; lia.
Defined.

(** ** Loading, continued *)

Lemma queues_fold_add_queue (rows : list Box) :
  forall self : Queue.t,
    Queue.queues (fold_left Queue.add_queue rows self) = Queue.queues self ++ rows.
Proof.
  induction rows as [| q rows IH]; intros self; cbn [fold_left].
  - rewrite app_nil_r; reflexivity.
  - rewrite IH; cbn [Queue.add_queue Queue.queues].
    rewrite <- app_assoc; reflexivity.
Qed.

(** X11.  When the zone file loads, [main] registers its rows as the
    zones in file order and prints nothing, so the count [check_coords]
    reports under key [k] is that of row [k - 1] of the file. *)
Theorem load_queues_file_order (rows : list Box) (coords : list Box)
  (i : nat) (z : Box) :
  nth_error rows i = Some z ->
  snd (load_queues (Ok (Rows rows))) = [] /\
  Queue.queues (fst (load_queues (Ok (Rows rows)))) = rows /\
  exists d,
    Queue.check_coords (fst (load_queues (Ok (Rows rows)))) coords = Ok d /\
    dict_get d (Z.of_nat i + 1) =
      Some (Z.of_nat (List.length
              (filter (fun c => (c0 c >? c0 z) && (c2 c <? c2 z)) coords))).
Proof.
  intros Hz.
  assert (Hq : Queue.queues (fst (load_queues (Ok (Rows rows)))) = rows).
  { unfold load_queues; cbn [bind iter fst].
    rewrite queues_fold_add_queue; reflexivity. }
  split; [reflexivity |].
  split; [exact Hq |].
  eexists; split; [apply check_coords_tally |].
  rewrite Hq; exact (dict_get_tally coords rows 0 i z Hz).
Qed.

Lemma load_queues_file_order_witness :
  Queue.queues (fst (load_queues (Ok (Rows [demo_wide_zone; demo_narrow_zone]))))
    = [demo_wide_zone; demo_narrow_zone] /\
  exists d,
    Queue.check_coords
      (fst (load_queues (Ok (Rows [demo_wide_zone; demo_narrow_zone]))))
      demo_coords = Ok d /\
    dict_get d (Z.of_nat 1 + 1) = Some 1.
Proof.
  destruct (load_queues_file_order [demo_wide_zone; demo_narrow_zone]
              demo_coords 1 demo_narrow_zone eq_refl) as (_ & Hq & d & Hd & Hg).
  split; [exact Hq |].
  exists d; split; [exact Hd | exact Hg].
Defined.

(** ** Postprocessing, continued *)

Lemma keep_box_fold (self : PersonDetect.t) (image : Image) (outputs : list Row) :
  forall acc : list Box,
    fold_left (PersonDetect.keep_box self (shape0 image) (shape1 image))
      outputs acc
    = acc ++ map (pixel_box image) (filter (kept self) outputs).
Proof.
  induction outputs as [| box outputs IH]; intros acc; cbn [fold_left filter].
  - rewrite app_nil_r; reflexivity.
  - rewrite IH; unfold PersonDetect.keep_box, kept.
    destruct (Qle_bool (PersonDetect.threshold self) (box2 box)); cbn [map].
    + rewrite <- app_assoc; reflexivity.
    + reflexivity.
Qed.

Lemma preprocess_outputs_map_filter (self : PersonDetect.t)
  (outputs : list Row) (image : Image) :
  PersonDetect.preprocess_outputs self outputs image =
  map (pixel_box image) (filter (kept self) outputs).
Proof.
  unfold PersonDetect.preprocess_outputs; apply (keep_box_fold self image outputs []).
Qed.

(** X12.  [preprocess_outputs] keeps the order of the detector's rows and
    treats each row on its own: the boxes of [outputs ++ outputs'] are
    the boxes of [outputs] followed by those of [outputs'], and the
    result lists, in row order, one box for each row whose score is at
    least the threshold. *)
Theorem preprocess_outputs_in_row_order (self : PersonDetect.t)
  (outputs outputs' : list Row) (image : Image) :
  PersonDetect.preprocess_outputs self (outputs ++ outputs') image =
    PersonDetect.preprocess_outputs self outputs image ++
    PersonDetect.preprocess_outputs self outputs' image /\
  PersonDetect.preprocess_outputs self outputs image =
    map (fun box =>
           mkBox (int (box3 box * inject_Z (shape1 image)))
                 (int (box4 box * inject_Z (shape0 image)))
                 (int (box5 box * inject_Z (shape1 image)))
                 (int (box6 box * inject_Z (shape0 image))))
      (filter (fun box => Qle_bool (PersonDetect.threshold self) (box2 box))
         outputs).
Proof.
  split.
  - rewrite !preprocess_outputs_map_filter, filter_app, map_app; reflexivity.
  - apply preprocess_outputs_map_filter.
Qed.

Lemma inject_Z_nonneg (W : Z) : 0 <= W -> (0 <= inject_Z W)%Q.
Proof. intros HW; unfold Qle; simpl; lia. Qed.

Lemma int_within (x : Q) (W : Z) :
  (0 <= x)%Q -> (x <= 1)%Q -> 0 <= W -> 0 <= int (x * inject_Z W) <= W.
Proof.
  intros Hx0 Hx1 HW.
  pose proof (inject_Z_nonneg W HW) as HWq.
  assert (Hlo : (0 <= x * inject_Z W)%Q) by (apply Qmult_le_0_compat; assumption).
  assert (Hhi : (x * inject_Z W <= inject_Z W)%Q).
  { rewrite <- (Qmult_1_l (inject_Z W)) at 2.
    apply Qmult_le_compat_r; assumption. }
  rewrite int_floor_nonneg by exact Hlo.
  apply Qfloor_resp_le in Hlo, Hhi.
  rewrite Qfloor_Z in Hhi; change (Qfloor 0) with 0 in Hlo; lia.
Qed.

Lemma int_monotone_nonneg (x y : Q) :
  (0 <= x)%Q -> (x <= y)%Q -> int x <= int y.
Proof.
  intros Hx Hxy.
  rewrite !int_floor_nonneg by (try exact Hx; apply (Qle_trans _ x); assumption).
  apply Qfloor_resp_le; exact Hxy.
Qed.

Lemma In_preprocess_outputs (self : PersonDetect.t) (outputs : list Row)
  (image : Image) (b : Box) :
  In b (PersonDetect.preprocess_outputs self outputs image) <->
  exists box,
    In box outputs /\ (PersonDetect.threshold self <= box2 box)%Q /\
    b = pixel_box image box.
Proof.
  rewrite preprocess_outputs_map_filter, in_map_iff; split.
  - intros (box & <- & Hin); apply filter_In in Hin; destruct Hin as [Hin Hk].
    exists box; repeat split; [exact Hin | apply Qle_bool_iff; exact Hk].
  - intros (box & Hin & Hk & ->); exists box; split; [reflexivity |].
    apply filter_In; split; [exact Hin | apply Qle_bool_iff; exact Hk].
Qed.

(** X13.  When the detector's coordinates are normalised to [0, 1], every
    box [preprocess_outputs] returns lies within the frame:
    [0 <= xmin, xmax <= W] and [0 <= ymin, ymax <= H]. *)
Theorem preprocess_outputs_within_frame (self : PersonDetect.t)
  (outputs : list Row) (image : Image) (b : Box) :
  0 <= shape0 image -> 0 <= shape1 image ->
  (forall box, In box outputs -> normalised box) ->
  In b (PersonDetect.preprocess_outputs self outputs image) ->
  0 <= c0 b <= shape1 image /\ 0 <= c1 b <= shape0 image /\
  0 <= c2 b <= shape1 image /\ 0 <= c3 b <= shape0 image.
Proof.
  intros HH HW Hnorm Hb.
  apply In_preprocess_outputs in Hb; destruct Hb as (box & Hin & _ & ->).
  destruct (Hnorm box Hin) as ([? ?] & [? ?] & [? ?] & [? ?]).
  cbn [pixel_box c0 c1 c2 c3]; repeat split; apply int_within; assumption.
Qed.

Lemma preprocess_outputs_within_frame_witness :
  0 <= c0 (mkBox 380 64 489 128) <= shape1 demo_image /\
  0 <= c1 (mkBox 380 64 489 128) <= shape0 demo_image /\
  0 <= c2 (mkBox 380 64 489 128) <= shape1 demo_image /\
  0 <= c3 (mkBox 380 64 489 128) <= shape0 demo_image.
Proof.
  apply (preprocess_outputs_within_frame
           (PersonDetect.mk (1 # 2) (demo_net [])) [demo_row] demo_image).
  - simpl; lia.
  - simpl; lia.
  - intros box [<- | []]; unfold normalised, Qle; simpl; lia.
  - left; reflexivity.
Defined.

(** X14.  A row whose corners are in order ([0 <= x1 <= x2] and
    [0 <= y1 <= y2]) never gives an inverted box: every returned box has
    [xmin <= xmax] and [ymin <= ymax], as truncation is monotone.  (The
    box can be degenerate, the two sides being equal.) *)
Theorem preprocess_outputs_boxes_ordered (self : PersonDetect.t)
  (outputs : list Row) (image : Image) (b : Box) :
  0 <= shape0 image -> 0 <= shape1 image ->
  (forall box, In box outputs ->
     (0 <= box3 box)%Q /\ (box3 box <= box5 box)%Q /\
     (0 <= box4 box)%Q /\ (box4 box <= box6 box)%Q) ->
  In b (PersonDetect.preprocess_outputs self outputs image) ->
  c0 b <= c2 b /\ c1 b <= c3 b.
Proof.
  intros HH HW Hord Hb.
  apply In_preprocess_outputs in Hb; destruct Hb as (box & Hin & _ & ->).
  destruct (Hord box Hin) as (Hx0 & Hx & Hy0 & Hy).
  pose proof (inject_Z_nonneg _ HW) as HWq.
  pose proof (inject_Z_nonneg _ HH) as HHq.
  cbn [pixel_box c0 c1 c2 c3]; split; apply int_monotone_nonneg;
    try (apply Qmult_le_0_compat; assumption);
    apply Qmult_le_compat_r; assumption.
Qed.

Lemma preprocess_outputs_boxes_ordered_witness :
  c0 (mkBox 380 64 489 128) <= c2 (mkBox 380 64 489 128) /\
  c1 (mkBox 380 64 489 128) <= c3 (mkBox 380 64 489 128).
Proof.
  apply (preprocess_outputs_boxes_ordered
           (PersonDetect.mk (1 # 2) (demo_net [])) [demo_row] demo_image).
  - simpl; lia.
  - simpl; lia.
  - intros box [<- | []]; unfold Qle; simpl; lia.
  - left; reflexivity.
Defined.

Lemma filter_length_implies {A : Type} (f g : A -> bool) (l : list A) :
  (forall a, f a = true -> g a = true) ->
  (List.length (filter f l) <= List.length (filter g l))%nat.
Proof.
  intros Hfg; induction l as [| a l IH]; cbn [filter].
  - apply Nat.le_refl.
  - destruct (f a) eqn:Ef.
    + rewrite (Hfg a Ef); cbn [List.length]; lia.
    + destruct (g a); cbn [List.length]; lia.
Qed.

(** X15.  Raising the threshold only removes detections: with the same
    rows and frame, every box returned under the higher threshold is
    returned under the lower one, and there are at most as many. *)
Theorem preprocess_outputs_threshold_monotone (self self' : PersonDetect.t)
  (outputs : list Row) (image : Image) :
  (PersonDetect.threshold self <= PersonDetect.threshold self')%Q ->
  (List.length (PersonDetect.preprocess_outputs self' outputs image)
   <= List.length (PersonDetect.preprocess_outputs self outputs image))%nat /\
  forall b,
    In b (PersonDetect.preprocess_outputs self' outputs image) ->
    In b (PersonDetect.preprocess_outputs self outputs image).
Proof.
  intros HT; split.
  - rewrite !preprocess_outputs_map_filter, !length_map.
    apply filter_length_implies; intros box; unfold kept.
    rewrite !Qle_bool_iff; intros Hk; exact (Qle_trans _ _ _ HT Hk).
  - intros b Hb; apply In_preprocess_outputs in Hb.
    destruct Hb as (box & Hin & Hk & ->).
    apply In_preprocess_outputs; exists box.
    repeat split; [exact Hin | exact (Qle_trans _ _ _ HT Hk)].
Qed.

Lemma preprocess_outputs_threshold_monotone_witness :
  (List.length
     (PersonDetect.preprocess_outputs (PersonDetect.mk (19 # 20) (demo_net []))
        [demo_row] demo_image)
   <= List.length
        (PersonDetect.preprocess_outputs (PersonDetect.mk (1 # 2) (demo_net []))
           [demo_row] demo_image))%nat.
Proof.
  apply (preprocess_outputs_threshold_monotone
           (PersonDetect.mk (1 # 2) (demo_net []))
           (PersonDetect.mk (19 # 20) (demo_net [])) [demo_row] demo_image).
  unfold Qle; simpl; lia.
Defined.

(** ** Drawing *)

Lemma draw_outputs_fold (bounding_boxes : list Box) :
  forall image : Image,
    let image' := PersonDetect.draw_outputs bounding_boxes image in
    rectangles image' = rectangles image ++ map corners bounding_boxes /\
    texts image' = texts image /\
    shape0 image' = shape0 image /\ shape1 image' = shape1 image.
Proof.
  unfold PersonDetect.draw_outputs.
  induction bounding_boxes as [| b bbs IH]; intros image; cbn [fold_left map].
  - rewrite app_nil_r; repeat split.
  - destruct (IH (cv2_rectangle image (c0 b, c1 b) (c2 b, c3 b)))
      as (Hr & Ht & Hh & Hw).
    cbv zeta in *; rewrite Hr, Ht, Hh, Hw; cbn [cv2_rectangle rectangles texts shape0 shape1].
    rewrite <- app_assoc; repeat split.
Qed.

(** X16.  [draw_outputs] adds one rectangle per bounding box, in the
    order of the boxes and with the box's two corners, after the
    rectangles already on the frame; it changes neither the frame's
    shape nor its texts. *)
Theorem draw_outputs_one_rectangle_per_box (bounding_boxes : list Box)
  (image : Image) :
  rectangles (PersonDetect.draw_outputs bounding_boxes image) =
    rectangles image ++
    map (fun b => ((c0 b, c1 b), (c2 b, c3 b))) bounding_boxes /\
  texts (PersonDetect.draw_outputs bounding_boxes image) = texts image /\
  shape0 (PersonDetect.draw_outputs bounding_boxes image) = shape0 image /\
  shape1 (PersonDetect.draw_outputs bounding_boxes image) = shape1 image.
Proof.
  exact (draw_outputs_fold bounding_boxes image).
Qed.

(** ** predict, continued *)

Lemma predict_success_facts (self : PersonDetect.t) (image image' : Image)
  (boxes : list Box) :
  PersonDetect.predict self image = Ok (boxes, image') ->
  boxes = PersonDetect.preprocess_outputs self
            (outputs (PersonDetect.net self image)) image /\
  rectangles image' = rectangles image ++ map corners boxes /\
  texts image' = texts image /\
  shape0 image' = shape0 image /\ shape1 image' = shape1 image.
Proof.
  unfold PersonDetect.predict.
  destruct (wait (PersonDetect.net self image) =? 0); [| discriminate].
  intros H; injection H as <- <-.
  split; [reflexivity | exact (draw_outputs_fold _ image)].
Qed.

(** X17.  When [predict] returns, the request completed with status 0,
    the boxes are those [preprocess_outputs] computes from the request's
    rows (so there are at most as many as rows), and the returned frame
    is the input frame with exactly one more rectangle per returned box
    and its shape and texts unchanged. *)
Theorem predict_success (self : PersonDetect.t) (image image' : Image)
  (boxes : list Box) :
  PersonDetect.predict self image = Ok (boxes, image') ->
  wait (PersonDetect.net self image) = 0 /\
  boxes = PersonDetect.preprocess_outputs self
            (outputs (PersonDetect.net self image)) image /\
  (List.length boxes <= List.length (outputs (PersonDetect.net self image)))%nat /\
  rectangles image' =
    rectangles image ++ map (fun b => ((c0 b, c1 b), (c2 b, c3 b))) boxes /\
  texts image' = texts image /\
  shape0 image' = shape0 image /\ shape1 image' = shape1 image.
Proof.
  unfold PersonDetect.predict.
  destruct (Z.eqb_spec (wait (PersonDetect.net self image)) 0) as [Hw | Hw];
    [| discriminate].
  intros H; injection H as <- <-.
  split; [exact Hw |].
  split; [reflexivity |].
  split.
  - rewrite preprocess_outputs_map_filter, length_map; apply filter_length_le.
  - exact (draw_outputs_fold _ image).
Qed.

Lemma predict_success_witness :
  PersonDetect.predict (PersonDetect.mk (1 # 2) (demo_net [demo_row])) demo_image
    = Ok ([mkBox 380 64 489 128], mkImage 320 544 [((380, 64), (489, 128))] []) /\
  wait (PersonDetect.net (PersonDetect.mk (1 # 2) (demo_net [demo_row])) demo_image)
    = 0.
Proof.
  assert (Hp : PersonDetect.predict
                 (PersonDetect.mk (1 # 2) (demo_net [demo_row])) demo_image
               = Ok ([mkBox 380 64 489 128],
                     mkImage 320 544 [((380, 64), (489, 128))] []))
    by reflexivity.
  split; [exact Hp |].
  exact (proj1 (predict_success _ _ _ _ Hp)).
Defined.

(** ** One frame *)

Lemma put_lines_keeps (kvs : list (Z * Z)) (max_people : Z) :
  forall (y_pixel : Z) (image : Image),
    rectangles (put_lines kvs max_people y_pixel image) = rectangles image /\
    shape0 (put_lines kvs max_people y_pixel image) = shape0 image /\
    shape1 (put_lines kvs max_people y_pixel image) = shape1 image.
Proof.
  induction kvs as [| [k v] kvs IH]; intros y_pixel image; cbn [put_lines].
  - repeat split.
  - destruct (IH (y_pixel + 40)
                (cv2_putText image (line_text max_people k v) (15, y_pixel)))
      as (Hr & Hh & Hw).
    rewrite Hr, Hh, Hw; repeat split.
Qed.

(** X18.  A frame that is processed without an exception comes out with
    one more rectangle for each detection and one more text line for
    each registered zone, its shape unchanged; the occupancy computed
    for it has one entry per zone and is the one [check_coords] gives
    for exactly the detections drawn. *)
Theorem process_frame_annotations (pd : PersonDetect.t) (queue : Queue.t)
  (max_people : Z) (frame image : Image) (num_people : dict) :
  process_frame pd queue max_people frame = Ok (num_people, image) ->
  exists coords,
    coords = PersonDetect.preprocess_outputs pd
               (outputs (PersonDetect.net pd frame)) frame /\
    Queue.check_coords queue coords = Ok num_people /\
    List.length num_people = List.length (Queue.queues queue) /\
    rectangles image =
      rectangles frame ++ map (fun b => ((c0 b, c1 b), (c2 b, c3 b))) coords /\
    List.length (texts image) =
      (List.length (texts frame) + List.length (Queue.queues queue))%nat /\
    shape0 image = shape0 frame /\ shape1 image = shape1 frame.
Proof.
  unfold process_frame; intros H.
  destruct (PersonDetect.predict pd frame) as [[coords drawn] | e] eqn:Hp;
    [| discriminate H].
  rewrite bind_Ok in H; cbn [fst snd] in H.
  rewrite check_coords_tally, bind_Ok in H; injection H as <- <-.
  destruct (predict_success_facts pd frame drawn coords Hp)
    as (Hc & Hr & Ht & Hh & Hw).
  exists coords; split; [exact Hc |].
  split; [apply check_coords_tally |].
  split; [apply length_tally |].
  destruct (put_lines_keeps (tally coords (Queue.queues queue) 0) max_people 25
              drawn) as (Hr' & Hh' & Hw').
  unfold overlay, items.
  rewrite Hr', Hh', Hw', texts_put_lines, length_app, length_lines, length_tally.
  rewrite Hr, Ht, Hh, Hw; repeat split.
Qed.

Lemma process_frame_annotations_witness :
  exists coords,
    Queue.check_coords (Queue.mk [demo_zone]) coords = Ok [(1, 0)] /\
    rectangles (mkImage 320 544 [((380, 64), (489, 128))]
                  [("No. of People in Queue 1 is 0 "%string, (15, 25))]) =
      rectangles demo_image ++ map (fun b => ((c0 b, c1 b), (c2 b, c3 b))) coords.
Proof.
  destruct (process_frame_annotations
              (PersonDetect.mk (1 # 2) (demo_net [demo_row])) (Queue.mk [demo_zone])
              2 demo_image
              (mkImage 320 544 [((380, 64), (489, 128))]
                 [("No. of People in Queue 1 is 0 "%string, (15, 25))])
              [(1, 0)] eq_refl) as (coords & _ & Hd & _ & Hr & _).
  exists coords; split; [exact Hd | exact Hr].
Defined.

(** ** The frame loop *)




(** X20.  A loop that runs to the end writes one annotated frame and
    records one occupancy for each frame of the video, and counts them
    all. *)
Theorem frame_loop_completed_outputs (pd : PersonDetect.t) (queue : Queue.t)
  (max_people : Z) (frames : list Image) (st : Run) :
  snd (frame_loop pd queue max_people frames st) = None ->
  let st' := fst (frame_loop pd queue max_people frames st) in
  counter st' = counter st + Z.of_nat (List.length frames) /\
  List.length (out_video st') =
    (List.length (out_video st) + List.length frames)%nat /\
  List.length (occupancy st') =
    (List.length (occupancy st) + List.length frames)%nat.
Proof.
  revert st; induction frames as [| frame frames IH]; intros st Hrun.
  - cbn [frame_loop fst List.length]; lia.
  - cbn [frame_loop] in *.
    destruct (process_frame pd queue max_people frame)
      as [[num_people image] | e]; [| discriminate Hrun].
    destruct (IH _ Hrun) as (Hc & Hv & Ho); cbv zeta in *.
    rewrite Hc, Hv, Ho; cbn [counter out_video occupancy List.length].
    rewrite !length_app; cbn [List.length]; lia.
Qed.

Lemma frame_loop_completed_outputs_witness :
  List.length
    (out_video
       (fst (frame_loop (PersonDetect.mk (1 # 2) (demo_net [demo_row]))
               (Queue.mk [demo_zone]) 2 [demo_image; demo_image]
               (mkRun 0 [] []))))
  = (List.length (out_video (mkRun 0 [] []))
     + List.length [demo_image; demo_image])%nat.
Proof.
  apply (frame_loop_completed_outputs
           (PersonDetect.mk (1 # 2) (demo_net [demo_row]))
           (Queue.mk [demo_zone]) 2 [demo_image; demo_image] (mkRun 0 [] [])).
  reflexivity.
Defined.



Lemma preprocess_outputs_all_below (self : PersonDetect.t)
  (outputs : list Row) (image : Image) :
  Forall (fun box => (box2 box < PersonDetect.threshold self)%Q) outputs ->
  PersonDetect.preprocess_outputs self outputs image = [].
Proof.
  intros Hall; rewrite preprocess_outputs_map_filter.
  replace (filter (kept self) outputs) with (@nil Row); [reflexivity |].
  symmetry; induction Hall as [| box outputs Hbox _ IH]; cbn [filter].
  - reflexivity.
  - unfold kept at 1.
    destruct (Qle_bool (PersonDetect.threshold self) (box2 box)) eqn:E.
    + apply Qle_bool_iff in E; exfalso; exact (Qlt_not_le _ _ Hbox E).
    + exact IH.
Qed.

Lemma process_frame_nothing_detected (pd : PersonDetect.t) (queue : Queue.t)
  (max_people : Z) (frame : Image) :
  nothing_detected pd frame ->
  exists image,
    process_frame pd queue max_people frame =
    Ok (Queue.zero_counts (List.length (Queue.queues queue)), image).
Proof.
  intros [Hw Hall]; unfold process_frame, PersonDetect.predict.
  rewrite Hw, (preprocess_outputs_all_below _ _ _ Hall); cbn [Z.eqb].
  rewrite bind_Ok; cbn [fst snd].
  eexists; reflexivity.
Qed.

(** X22.  If on every frame the detector completes and no row reaches
    the threshold, the loop runs to the end and every occupancy it
    records is the all-zero mapping over the zone numbers [1 .. N]. *)
Theorem frame_loop_nothing_detected (pd : PersonDetect.t) (queue : Queue.t)
  (max_people : Z) (frames : list Image) (st : Run) :
  Forall (fun frame =>
            wait (PersonDetect.net pd frame) = 0 /\
            Forall (fun box => (box2 box < PersonDetect.threshold pd)%Q)
              (outputs (PersonDetect.net pd frame)))
    frames ->
  snd (frame_loop pd queue max_people frames st) = None /\
  occupancy (fst (frame_loop pd queue max_people frames st)) =
    occupancy st ++
    repeat (map (fun k => (Z.of_nat k + 1, 0))
              (seq 0 (List.length (Queue.queues queue))))
      (List.length frames).
Proof.
  intros Hall; revert st.
  induction Hall as [| frame frames Hframe _ IH]; intros st; cbn [frame_loop].
  - cbn [fst snd List.length repeat]; rewrite app_nil_r; split; reflexivity.
  - destruct (process_frame_nothing_detected pd queue max_people frame Hframe)
      as [image ->].
    destruct (IH (mkRun (counter st + 1) (out_video st ++ [image])
                    (occupancy st ++
                     [Queue.zero_counts (List.length (Queue.queues queue))])))
      as (Hs & Ho).
    cbn [counter out_video occupancy] in *.
    split; [exact Hs |].
    rewrite Ho, <- app_assoc; reflexivity.
Qed.

Lemma frame_loop_nothing_detected_witness :
  occupancy
    (fst (frame_loop (PersonDetect.mk (19 # 20) (demo_net [demo_row]))
            (Queue.mk [demo_zone; demo_nested_zone]) 2 [demo_image; demo_image]
            (mkRun 0 [] [])))
  = [[(1, 0); (2, 0)]; [(1, 0); (2, 0)]].
Proof.
  refine (proj2 (frame_loop_nothing_detected
                   (PersonDetect.mk (19 # 20) (demo_net [demo_row]))
                   (Queue.mk [demo_zone; demo_nested_zone]) 2
                   [demo_image; demo_image] (mkRun 0 [] []) _)).
  repeat constructor.
Defined.

(** ** The statistics file, continued *)

Lemma round_zero_iff (x : Q) :
  round x = 0 <-> (- (1 # 2) <= x <= 1 # 2)%Q.
Proof.
  split.
  - intros Hr; pose proof (round_nearest x) as Hn.
    rewrite Hr in Hn; apply Qabs_Qle_condition in Hn.
    change (inject_Z 0) with 0%Q in Hn; lra.
  - intros [Hlo Hhi].
    pose proof (Qfloor_le x) as Hf.
    pose proof (Qlt_floor x) as Hc.
    assert (Hf0 : Qfloor x < 1).
    { rewrite Zlt_Qlt; change (inject_Z 1) with 1%Q.
      generalize dependent (inject_Z (Qfloor x)); intros f Hf; lra. }
    assert (Hf1 : -1 < Qfloor x + 1).
    { rewrite Zlt_Qlt; change (inject_Z (-1)) with (- (1))%Q.
      generalize dependent (inject_Z (Qfloor x + 1)); intros f Hc; lra. }
    unfold round.
    assert (Hcase : Qfloor x = 0 \/ Qfloor x = -1) by lia.
    destruct Hcase as [E | E]; rewrite E in *.
    + change (inject_Z 0) with 0%Q in *.
      destruct (Qcompare_spec (x - 0) (1 # 2)) as [H | H | H];
        [reflexivity | reflexivity | lra].
    + change (inject_Z (-1)) with (- (1))%Q in *.
      destruct (Qcompare_spec (x - - (1)) (1 # 2)) as [H | H | H];
        [reflexivity | lra | reflexivity].
Qed.

Lemma round1_zero_iff (x : Q) :
  (round1 x == 0)%Q <-> (- (1 # 20) <= x <= 1 # 20)%Q.
Proof.
  assert (Hr : (round1 x == 0)%Q <-> round (x * inject_Z 10) = 0).
  { pose proof (round1_tenths x) as Ht; split.
    - intros H0; rewrite H0 in Ht.
      apply inject_Z_injective; rewrite <- Ht; reflexivity.
    - intros H0; rewrite H0 in Ht.
      change (inject_Z 10) with 10%Q in Ht; change (inject_Z 0) with 0%Q in Ht.
      generalize dependent (round1 x); intros r Ht; lra. }
  rewrite Hr, round_zero_iff; change (inject_Z 10) with 10%Q.
  split; intros [? ?]; split; lra.
Qed.

(** X23.  The division on line 198 raises [ZeroDivisionError] exactly
    when the measured time is within 0.05 s of zero (it then rounds to
    0.0), whatever the number of frames; in every other case the three
    values are produced. *)
Theorem stats_values_zero_division (frame_count : Z)
  (total_time total_model_load_time : Q) :
  (stats_values frame_count total_time total_model_load_time
     = Raise ZeroDivisionError <->
   (- (1 # 20) <= total_time <= 1 # 20)%Q) /\
  (~ (- (1 # 20) <= total_time <= 1 # 20)%Q <->
   exists t fps,
     stats_values frame_count total_time total_model_load_time
       = Ok [t; fps; total_model_load_time]).
Proof.
  unfold stats_values.
  destruct (Qeq_bool (round1 total_time) 0) eqn:E; cbn [bind].
  - apply Qeq_bool_iff, round1_zero_iff in E.
    split; split; try tauto; try discriminate.
    intros (t & fps & H); discriminate H.
  - assert (Hn : ~ (- (1 # 20) <= total_time <= 1 # 20)%Q).
    { intros H; apply round1_zero_iff, Qeq_bool_iff in H; congruence. }
    split; split; try tauto; try discriminate.
    intros _; eexists; eexists; reflexivity.
Qed.

Lemma stats_values_zero_division_witness :
  stats_values 25 (1 # 25) (3 # 2) = Raise ZeroDivisionError.
Proof.
  apply (proj1 (stats_values_zero_division 25 (1 # 25) (3 # 2))).
  unfold Qle; simpl; lia.
Defined.

(** ** The whole run *)



(** ** The overlay, continued *)

(** X25.  Whether the "Queue full" notice can appear is settled by
    [max_people] alone at the two extremes: with [max_people <= 0] the
    line of every zone carries it, even for an empty zone, and with
    [max_people] above the number of detections in the frame no line
    carries it. *)
Theorem overlay_notice_extremes (self : Queue.t) (coords : list Box)
  (max_people : Z) (image : Image) (i : nat) (z : Box) :
  nth_error (Queue.queues self) i = Some z ->
  exists num_people V,
    Queue.check_coords self coords = Ok num_people /\
    dict_get num_people (Z.of_nat i + 1) = Some V /\
    (max_people <= 0 ->
     nth_error (texts (overlay num_people max_people image))
       (List.length (texts image) + i)
     = Some ((queue_text (Z.of_nat i + 1) V ++ queue_full)%string,
             (15, 25 + 40 * Z.of_nat i))) /\
    (Z.of_nat (List.length coords) < max_people ->
     nth_error (texts (overlay num_people max_people image))
       (List.length (texts image) + i)
     = Some (queue_text (Z.of_nat i + 1) V, (15, 25 + 40 * Z.of_nat i))).
Proof.
  intros Hz.
  exists (tally coords (Queue.queues self) 0), (hits coords z).
  split; [apply check_coords_tally |].
  split; [exact (dict_get_tally coords _ 0 i z Hz) |].
  assert (Hline :
            nth_error
              (texts (overlay (tally coords (Queue.queues self) 0) max_people image))
              (List.length (texts image) + i)
            = Some (line_text max_people (Z.of_nat i + 1) (hits coords z),
                    (15, 25 + 40 * Z.of_nat i))).
  { unfold overlay, items; rewrite texts_put_lines, nth_error_app2 by lia.
    replace (List.length (texts image) + i - List.length (texts image))%nat
      with i by lia.
    exact (nth_error_lines_tally coords _ max_people 0 i 25 z Hz). }
  pose proof (hits_nonneg coords z) as Hlo.
  pose proof (hits_le_length coords z) as Hhi.
  rewrite Hline; unfold line_text; cbn [append]; split; intros Hm.
  - destruct (Z.geb_spec (hits coords z) max_people); [reflexivity | lia].
  - destruct (Z.geb_spec (hits coords z) max_people); [lia | reflexivity].
Qed.

Lemma overlay_notice_extremes_witness :
  exists num_people V,
    Queue.check_coords (Queue.mk [demo_zone]) [] = Ok num_people /\
    dict_get num_people (Z.of_nat 0 + 1) = Some V /\
    nth_error (texts (overlay num_people 0 demo_image))
      (List.length (texts demo_image) + 0)
    = Some ((queue_text (Z.of_nat 0 + 1) V ++ queue_full)%string,
            (15, 25 + 40 * Z.of_nat 0)).
Proof.
  destruct (overlay_notice_extremes (Queue.mk [demo_zone]) [] 0 demo_image 0
              demo_zone eq_refl) as (num_people & V & Hd & Hg & Hfull & _).
  exists num_people, V; split; [exact Hd |]; split; [exact Hg |].
  apply Hfull; lia.
Defined.
